(** * ChemFacts: the stats endpoint of [app_stats.py]

    A shallow embedding of the Flask view [get_stats] and of the module-level
    configuration it reads, followed by the properties of the endpoint.

    Layout of the development:
    - [Py]         the Python values and builtin operations the view uses;
    - [Config]     the module-level bindings ([API_KEY], [STATS_PROMPT],
                   [STATS_SCHEMA], [stats_model], [stats_generation_config]);
    - [Flask]      responses, [jsonify], the request object;
    - [View]       the effect monad and the view function [get_stats];
    - [Machine]    the same view as a small-step machine over its control
                   points;
    - [Fixtures]   concrete requests and upstream behaviours;
    - [Properties] the predicates the statements are written with;
    - [Startup]    the top level of the module and the [__main__] block;
    - [Session]    requests served one after another;
    - [Paths]      one lemma per branch of the view;
    - the properties of the endpoint, C1 to C10;
    - further properties of the code.

    The decoder [json.loads] and the upstream capability are parameters of
    every statement: nothing is assumed about them beyond their types. *)

From Stdlib Require Import ZArith String Ascii List Bool Lia Floats.
From ExtLib Require Import Structures.Monad Structures.MonadState Structures.MonadExc.
From ExtLib Require Import Data.Monads.StateMonad Data.Monads.EitherMonad.
Import ListNotations.
Import MonadNotation.
Local Open Scope monad_scope.
Local Open Scope string_scope.
Local Open Scope Z_scope.

(* ===================================================================== *)
(** ** Python values and builtins *)
(* ===================================================================== *)

Module Py.

(** A raised exception: its class name and [str(e)]. *)
Record exn : Type := mkExn { exn_class : string; exn_str : string }.

(** The outcome of a Python call: [inl e] when it raises [e]. *)
Definition result (A : Type) : Type := (exn + A)%type.

Abbreviation Returns := (@inr exn _).
Abbreviation Raises := (@inl exn _).

Definition TypeError (msg : string) : exn := mkExn "TypeError" msg.
Definition KeyError (msg : string) : exn := mkExn "KeyError" msg.
Definition IndexError (msg : string) : exn := mkExn "IndexError" msg.

#[local] Set Warnings "-register-all".

(** The values [json.loads] and [request.get_json] produce.  A [dict] keeps
    its items in insertion order; numbers with a fraction or an exponent are
    binary64 floats, as in CPython. *)
Inductive pyval : Type :=
| PyNone
| PyBool (b : bool)
| PyInt (n : Z)
| PyFloat (f : float)
| PyStr (s : string)
| PyList (l : list pyval)
| PyDict (d : list (string * pyval)).

(** [type(v).__name__] *)
Definition type_name (v : pyval) : string :=
  match v with
  | PyNone => "NoneType"
  | PyBool _ => "bool"
  | PyInt _ => "int"
  | PyFloat _ => "float"
  | PyStr _ => "str"
  | PyList _ => "list"
  | PyDict _ => "dict"
  end.

(** [bool(v)]: truth value testing. *)
Definition truthy (v : pyval) : bool :=
  match v with
  | PyNone => false
  | PyBool b => b
  | PyInt n => negb (n =? 0)
  | PyFloat f => negb (PrimFloat.eqb f PrimFloat.zero)
  | PyStr s => negb (String.eqb s "")
  | PyList l => match l with [] => false | _ :: _ => true end
  | PyDict d => match d with [] => false | _ :: _ => true end
  end.

(** [not v] *)
Definition py_not (v : pyval) : bool := negb (truthy v).

(** [not s] for the result of [os.getenv], which is [None] or a [str]. *)
Definition not_env (s : option string) : bool :=
  match s with
  | None => true
  | Some k => String.eqb k ""
  end.

(** [needle in hay] on two [str]: substring test. *)
Fixpoint str_contains (needle hay : string) : bool :=
  String.prefix needle hay
  || match hay with
     | EmptyString => false
     | String _ rest => str_contains needle rest
     end.

(** [d.get(k)] on the items of a [dict]. *)
Fixpoint dict_get (k : string) (d : list (string * pyval)) : option pyval :=
  match d with
  | [] => None
  | (k', v) :: rest => if String.eqb k k' then Some v else dict_get k rest
  end.

Definition dict_has (k : string) (d : list (string * pyval)) : bool :=
  match dict_get k d with Some _ => true | None => false end.

(** [x == k] for a decoded value [x] and a [str] [k]. *)
Definition eq_str (k : string) (x : pyval) : bool :=
  match x with
  | PyStr s => String.eqb k s
  | _ => false
  end.

(** [k in v] for a [str] key [k]: key membership on a [dict], element
    membership on a [list], substring on a [str]; the other types are not
    containers and raise. *)
Definition py_in (k : string) (v : pyval) : result bool :=
  match v with
  | PyDict d => Returns (dict_has k d)
  | PyList l => Returns (existsb (eq_str k) l)
  | PyStr s => Returns (str_contains k s)
  | _ => Raises (TypeError ("argument of type '" ++ type_name v ++ "' is not iterable"))
  end.

(** [v[k]] for a [str] key [k]. *)
Definition py_getitem (v : pyval) (k : string) : result pyval :=
  match v with
  | PyDict d =>
      match dict_get k d with
      | Some x => Returns x
      | None => Raises (KeyError ("'" ++ k ++ "'"))
      end
  | PyList _ => Raises (TypeError "list indices must be integers or slices, not str")
  | PyStr _ => Raises (TypeError "string indices must be integers, not 'str'")
  | _ => Raises (TypeError ("'" ++ type_name v ++ "' object is not subscriptable"))
  end.

(** [l[0]] on a sequence. *)
Definition first {A} (l : list A) : result A :=
  match l with
  | x :: _ => Returns x
  | [] => Raises (IndexError "list index out of range")
  end.

(** An f-string with literal text and interpolated values.  The rendering of
    an interpolated value ([format(v, '')], that is [str(v)]) is kept
    symbolic, so two f-strings that Python renders differently are different
    here. *)
Inductive fpart : Type :=
| Lit (s : string)
| Interp (v : pyval).

Definition fstring : Type := list fpart.

End Py.

(* ===================================================================== *)
(** ** Module-level configuration (lines 7-62 of [app_stats.py]) *)
(* ===================================================================== *)

Module Config.
Import Py.

Definition nl : string := String "010"%char EmptyString.
Definition dq : string := String "034"%char EmptyString.

(** A triple-quoted literal, written line by line. *)
Definition lines (ls : list string) : string :=
  fold_right (fun l acc => l ++ nl ++ acc) "" ls.

Definition STATS_PROMPT : string :=
  nl ++ lines
  [ "You are a " ++ dq ++ "Chemical Stats" ++ dq ++ " generator for a game. A user will provide a"
  ; "chemical element symbol (like 'Fe') or a formula (like 'H2O')."
  ; "Your task is to return a JSON object with " ++ dq ++ "gamified" ++ dq ++ " stats for it."
  ; ""
  ; "RULES:"
  ; "1.  **Query Type**: Determine if the query is a single 'element' or a 'molecule'."
  ; "2.  **Stats**: Provide ratings from 0 to 10 for each stat."
  ; "    - `stability`: 0 = falls apart, 10 = extremely stable (like N2)."
  ; "    - `reactivity`: 0 = inert (like He), 10 = extremely reactive (like Fluorine or Sodium)."
  ; "    - `explosiveness`: 0 = not explosive (like H2O), 10 = highly explosive (like TNT or Nitroglycerin)."
  ; "3.  **Description**: Write a short, engaging description (1-2 sentences)."
  ; "4.  **Fun Fact**: Provide a one-sentence fun fact."
  ; ""
  ; "Respond *only* with the JSON object."
  ].

(** The [type] tags used by [STATS_SCHEMA]. *)
Inductive schema_type : Type := OBJECT | STRING | INTEGER.

Record property : Type := mkProperty
  { prop_type : schema_type
  ; prop_description : string }.

Record schema : Type := mkSchema
  { schema_type_of : schema_type
  ; properties : list (string * property)
  ; required : list string }.

Definition STATS_SCHEMA : schema :=
  {| schema_type_of := OBJECT
   ; properties :=
       [ ("name", mkProperty STRING "Common name, e.g., 'Water' or 'Iron'")
       ; ("query_type", mkProperty STRING "'element' or 'molecule'")
       ; ("description", mkProperty STRING "A 1-2 sentence cool description.")
       ; ("stability", mkProperty INTEGER "Rating 0-10")
       ; ("reactivity", mkProperty INTEGER "Rating 0-10")
       ; ("explosiveness", mkProperty INTEGER "Rating 0-10")
       ; ("fun_fact", mkProperty STRING "A one-sentence fun fact.") ]
   ; required :=
       [ "name"; "query_type"; "description"; "stability"; "reactivity"
       ; "explosiveness"; "fun_fact" ] |}.

(** [genai.GenerativeModel(model_name, system_instruction=...)] *)
Record GenerativeModel : Type := mkGenerativeModel
  { model_name : string
  ; system_instruction : string }.

(** [genai.GenerationConfig(response_mime_type=..., response_schema=...)] *)
Record GenerationConfig : Type := mkGenerationConfig
  { response_mime_type : string
  ; response_schema : schema }.

(** The bindings of the module that the view can see; [prompt_text] and
    [stats_schema] are the bindings named [STATS_PROMPT] and [STATS_SCHEMA]. *)
Record module_state : Type := mkModule
  { API_KEY : option string
  ; prompt_text : string
  ; stats_schema : schema
  ; stats_model : GenerativeModel
  ; stats_generation_config : GenerationConfig }.

(** The module after import, given what [os.getenv("GEMINI_API_KEY")]
    returned.  The prints of lines 10-16 and [genai.configure] leave no
    binding. *)
Definition import_module (getenv : option string) : module_state :=
  {| API_KEY := getenv
   ; prompt_text := STATS_PROMPT
   ; stats_schema := STATS_SCHEMA
   ; stats_model :=
       mkGenerativeModel "gemini-2.5-flash-preview-09-2025" STATS_PROMPT
   ; stats_generation_config :=
       mkGenerationConfig "application/json" STATS_SCHEMA |}.

(** The ratings' range, as [STATS_PROMPT] and the schema's descriptions
    ("Rating 0-10") word it. *)
Definition RATING_MIN : Z := 0.
Definition RATING_MAX : Z := 10.

(** A decoded value carries every key the schema lists as [required]. *)
Definition has_required_fields (s : schema) (v : pyval) : bool :=
  match v with
  | PyDict d => forallb (fun k => dict_has k d) (required s)
  | _ => false
  end.

Definition is_rating (x : option pyval) : bool :=
  match x with
  | Some (PyInt n) => (RATING_MIN <=? n) && (n <=? RATING_MAX)
  | _ => false
  end.

(** Every [INTEGER] property of the schema is present and within the
    ratings' range. *)
Definition ratings_in_range (s : schema) (v : pyval) : bool :=
  match v with
  | PyDict d =>
      forallb
        (fun kp : string * property =>
           match prop_type (snd kp) with
           | INTEGER => is_rating (dict_get (fst kp) d)
           | _ => true
           end)
        (properties s)
  | _ => false
  end.

(** The Stats Record invariant on a response body. *)
Definition is_stats_record (v : pyval) : bool :=
  has_required_fields STATS_SCHEMA v && ratings_in_range STATS_SCHEMA v.

End Config.

(* ===================================================================== *)
(** ** Flask: responses and the request *)
(* ===================================================================== *)

Module Flask.
Import Py.

(** A JSON response: the value that was serialised and the status code. *)
Record Response : Type := mkResponse
  { json : pyval
  ; status_code : Z }.

(** [jsonify(v)]: a JSON response with the default status. *)
Definition jsonify (v : pyval) : Response :=
  {| json := v; status_code := 200 |}.

(** What a view returns: a response, or a [(response, status)] tuple. *)
Inductive view_rv : Type :=
| RvResponse (r : Response)
| RvTuple (r : Response) (status : Z).

(** [app.make_response(rv)]: the status of a tuple overrides the response's. *)
Definition make_response (rv : view_rv) : Response :=
  match rv with
  | RvResponse r => r
  | RvTuple r status => {| json := json r; status_code := status |}
  end.

(** The request as the view sees it: what [request.get_json()] does when it
    is called.  It returns the decoded body (any JSON value, [None] included)
    or raises one of werkzeug's HTTP exceptions. *)
Record request : Type := mkRequest
  { get_json : result pyval }.

(** The dict literal [{"error": msg}]. *)
Definition error_dict (msg : string) : pyval := PyDict [("error", PyStr msg)].

(** The response Flask builds from [jsonify({"error": msg}), status]. *)
Definition error_response (msg : string) (status : Z) : Response :=
  make_response (RvTuple (jsonify (error_dict msg)) status).

(** A body is an error object: a dict with exactly the key [error], bound to
    a [str]. *)
Definition is_error_body (v : pyval) : bool :=
  match v with
  | PyDict [(k, PyStr _)] => String.eqb k "error"
  | _ => false
  end.

End Flask.

(* ===================================================================== *)
(** ** The view function *)
(* ===================================================================== *)

Module View.
Import Py Config Flask.

(** The reply of the client library: [response.candidates[i].content.parts[j].text]. *)
Record Part : Type := mkPart { text : string }.
Record Content : Type := mkContent { parts : list Part }.
Record Candidate : Type := mkCandidate { content : Content }.
Record GenerateContentResponse : Type := mkGenResponse { candidates : list Candidate }.

(** What lies outside the module for the time of one request: the decoder
    [json.loads] and the upstream capability behind
    [GenerativeModel.generate_content].  Either may raise; what they raise is
    an instance of [Exception]. *)
Record runtime : Type := mkRuntime
  { json_loads : string -> result pyval
  ; generate_content :
      GenerativeModel -> fstring -> GenerationConfig -> result GenerateContentResponse }.

(** Observable effects, in the order they happen. *)
Inductive event : Type :=
| EvGenerate (model : GenerativeModel) (contents : fstring) (cfg : GenerationConfig)
| EvPrint (line : string).

(** The state a request runs in: the module's bindings and the effects so far. *)
Record world : Type := mkWorld
  { globals : module_state
  ; trace : list event }.

(** The world a request starts in. *)
Definition fresh (g : module_state) : world := {| globals := g; trace := [] |}.

(** Exceptions over state: what was done before a [raise] stays done. *)
Definition Handler : Type -> Type := eitherT exn (state world).

Definition run {A} (h : Handler A) (w : world) : result A * world :=
  runState (unEitherT h) w.

(** Lift the outcome of a pure call. *)
Definition call {A} (r : result A) : Handler A :=
  match r with
  | inl e => raise e
  | inr a => ret a
  end.

(** Read a module-level name. *)
Definition global {A} (name : module_state -> A) : Handler A :=
  w <- get ;; ret (name (globals w)).

(** Record an effect. *)
Definition emit (ev : event) : Handler unit :=
  w <- get ;; put {| globals := globals w; trace := trace w ++ [ev] |}.

(** [print(line)] *)
Definition print (line : string) : Handler unit := emit (EvPrint line).

(** [model.generate_content(contents, generation_config=cfg)] *)
Definition call_generate_content (rt : runtime) (model : GenerativeModel)
    (contents : fstring) (cfg : GenerationConfig) : Handler GenerateContentResponse :=
  emit (EvGenerate model contents cfg) ;;
  call (generate_content rt model contents cfg).

Definition MISSING_KEY_MESSAGE : string := "Server is missing GEMINI_API_KEY".
Definition MISSING_QUERY_MESSAGE : string :=
  "Invalid request: 'query' missing in JSON body".
Definition GENERATION_FAILED_PREFIX : string := "AI stats generation failed: ".
Definition PRINT_PREFIX : string :=
  "An error occurred calling the Gemini API for stats: ".

(** The f-string [f"Generate stats for: {user_query}"]. *)
Definition prompt_for (user_query : pyval) : fstring :=
  [Lit "Generate stats for: "; Interp user_query].

(** [not data or 'query' not in data], with [or] short-circuiting. *)
Definition query_missing (data : pyval) : result bool :=
  if py_not data then Returns true
  else match py_in "query" data with
       | inl e => Raises e
       | inr b => Returns (negb b)
       end.

(** The body of the [try] block (lines 84-91). *)
Definition try_body (rt : runtime) (user_query : pyval) : Handler view_rv :=
  model <- global stats_model ;;
  cfg <- global stats_generation_config ;;
  response <- call_generate_content rt model (prompt_for user_query) cfg ;;
  candidate <- call (first (candidates response)) ;;
  part <- call (first (parts (content candidate))) ;;
  let stats_text := text part in
  parsed <- call (json_loads rt stats_text) ;;
  ret (RvResponse (jsonify parsed)).

(** The [except Exception as e] clause (lines 93-95). *)
Definition except_clause (e : exn) : Handler view_rv :=
  print (PRINT_PREFIX ++ exn_str e) ;;
  ret (RvTuple (jsonify (error_dict (GENERATION_FAILED_PREFIX ++ exn_str e))) 500).

(** [get_stats] (lines 72-95). *)
Definition get_stats (rt : runtime) (rq : request) : Handler view_rv :=
  key <- global API_KEY ;;
  if not_env key then
    ret (RvTuple (jsonify (error_dict MISSING_KEY_MESSAGE)) 500)
  else
    data <- call (get_json rq) ;;
    missing <- call (query_missing data) ;;
    if (missing : bool) then
      ret (RvTuple (jsonify (error_dict MISSING_QUERY_MESSAGE)) 400)
    else
      user_query <- call (py_getitem data "query") ;;
      catch (try_body rt user_query) except_clause.

(** One request against the module [g]: the view's outcome (the response
    Flask builds from what it returned, or the exception that escaped it),
    the module afterwards, and the effects. *)
Definition serve (g : module_state) (rt : runtime) (rq : request)
  : result Response * world :=
  let (r, w) := run (get_stats rt rq) (fresh g) in
  (match r with
   | inl e => Raises e
   | inr rv => Returns (make_response rv)
   end, w).

Definition outcome (g : module_state) (rt : runtime) (rq : request) : result Response :=
  fst (serve g rt rq).

Definition effects (g : module_state) (rt : runtime) (rq : request) : list event :=
  trace (snd (serve g rt rq)).

Definition module_after (g : module_state) (rt : runtime) (rq : request) : module_state :=
  globals (snd (serve g rt rq)).

(** The upstream calls among some effects. *)
Definition is_generate (ev : event) : bool :=
  match ev with
  | EvGenerate _ _ _ => true
  | EvPrint _ => false
  end.

Definition upstream_calls (evs : list event) : list event := filter is_generate evs.

End View.

(* ===================================================================== *)
(** ** The view as a machine over its control points *)
(* ===================================================================== *)

Module Machine.
Import Py Config Flask View.

(** Where a request stands: not yet started, blocked in the upstream call
    made for [user_query], or finished, with the relayed value ([Done]) or
    with anything else ([Failed]: an error response, or an exception that
    left the view). *)
Inductive control : Type :=
| Idle
| AwaitingResponse (user_query : pyval)
| Done (r : Response)
| Failed (o : result Response).

Definition config : Type := (control * world)%type.

Definition log (ev : event) (w : world) : world :=
  {| globals := globals w; trace := trace w ++ [ev] |}.

(** Lines 73-88: from the entry of the view to the upstream call. *)
Definition enter (rq : request) (w : world) : config :=
  if not_env (API_KEY (globals w)) then
    (Failed (Returns (error_response MISSING_KEY_MESSAGE 500)), w)
  else
    match get_json rq with
    | inl e => (Failed (Raises e), w)
    | inr data =>
        match query_missing data with
        | inl e => (Failed (Raises e), w)
        | inr true => (Failed (Returns (error_response MISSING_QUERY_MESSAGE 400)), w)
        | inr false =>
            match py_getitem data "query" with
            | inl e => (Failed (Raises e), w)
            | inr user_query =>
                (AwaitingResponse user_query,
                 log (EvGenerate (stats_model (globals w)) (prompt_for user_query)
                        (stats_generation_config (globals w))) w)
            end
        end
    end.

(** Line 90: [response.candidates[0].content.parts[0].text]. *)
Definition stats_text (response : GenerateContentResponse) : result string :=
  match first (candidates response) with
  | inl e => Raises e
  | inr candidate =>
      match first (parts (content candidate)) with
      | inl e => Raises e
      | inr part => Returns (text part)
      end
  end.

(** Lines 90-91: that text, decoded. *)
Definition relay (rt : runtime) (response : GenerateContentResponse) : result pyval :=
  match stats_text response with
  | inl e => Raises e
  | inr t => json_loads rt t
  end.

(** What the upstream call and the decoding of its reply give for
    [user_query], or the exception either raises. *)
Definition upstream_payload (rt : runtime) (g : module_state) (user_query : pyval)
  : result pyval :=
  match generate_content rt (stats_model g) (prompt_for user_query)
          (stats_generation_config g) with
  | inl e => Raises e
  | inr response => relay rt response
  end.

(** Lines 85-95: from the upstream's answer to the return of the view. *)
Definition resume (rt : runtime) (user_query : pyval) (w : world) : config :=
  match upstream_payload rt (globals w) user_query with
  | inr parsed => (Done (jsonify parsed), w)
  | inl e =>
      (Failed (Returns (error_response (GENERATION_FAILED_PREFIX ++ exn_str e) 500)),
       log (EvPrint (PRINT_PREFIX ++ exn_str e)) w)
  end.

Definition step (rt : runtime) (rq : request) (c : config) : option config :=
  match fst c with
  | Idle => Some (enter rq (snd c))
  | AwaitingResponse user_query => Some (resume rt user_query (snd c))
  | Done _ => None
  | Failed _ => None
  end.

(** [c'] is reached from [c] in some number of steps. *)
Inductive reaches (rt : runtime) (rq : request) : config -> config -> Prop :=
| reaches_refl c : reaches rt rq c c
| reaches_step c c' c'' :
    step rt rq c = Some c' -> reaches rt rq c' c'' -> reaches rt rq c c''.

(** Run at most [n] steps. *)
Fixpoint steps (rt : runtime) (rq : request) (n : nat) (c : config) : config :=
  match n with
  | O => c
  | S n' =>
      match step rt rq c with
      | Some c' => steps rt rq n' c'
      | None => c
      end
  end.

Definition terminal (k : control) : bool :=
  match k with
  | Done _ => true
  | Failed _ => true
  | _ => false
  end.

Definition awaiting (k : control) : bool :=
  match k with
  | AwaitingResponse _ => true
  | _ => false
  end.

(** The view's outcome at a finished control point. *)
Definition result_of (k : control) : option (result Response) :=
  match k with
  | Done r => Some (Returns r)
  | Failed o => Some o
  | _ => None
  end.

Definition start (g : module_state) : config := (Idle, fresh g).

(** The view's outcome and the world at a finished configuration. *)
Definition verdict (c : config) : option (result Response * world) :=
  match result_of (fst c) with
  | Some o => Some (o, snd c)
  | None => None
  end.

End Machine.

(* ===================================================================== *)
(** ** Concrete requests and upstream behaviours *)
(* ===================================================================== *)

Module Fixtures.
Import Py Config Flask View.

Definition with_key : module_state := import_module (Some "test-key").
Definition without_key : module_state := import_module None.

Definition body (items : list (string * pyval)) : request :=
  mkRequest (Returns (PyDict items)).

(** [{"query": "Fe"}] *)
Definition request_Fe : request := body [("query", PyStr "Fe")].
(** [{}] *)
Definition request_empty_object : request := body [].
(** [{"formula": "H2O"}] *)
Definition request_no_query : request := body [("formula", PyStr "H2O")].
(** [{"query": ""}] *)
Definition request_empty_query : request := body [("query", PyStr "")].

Definition quoted (s : string) : string := dq ++ s ++ dq.

(** The text of a conforming reply for iron. *)
Definition IRON_TEXT : string :=
  "{" ++ quoted "name" ++ ": " ++ quoted "Iron" ++ ", "
      ++ quoted "query_type" ++ ": " ++ quoted "element" ++ ", "
      ++ quoted "description" ++ ": " ++ quoted "A sturdy transition metal." ++ ", "
      ++ quoted "stability" ++ ": 8, "
      ++ quoted "reactivity" ++ ": 4, "
      ++ quoted "explosiveness" ++ ": 0, "
      ++ quoted "fun_fact" ++ ": " ++ quoted "Iron makes blood red." ++ "}".

Definition IRON : pyval :=
  PyDict [ ("name", PyStr "Iron"); ("query_type", PyStr "element")
         ; ("description", PyStr "A sturdy transition metal.")
         ; ("stability", PyInt 8); ("reactivity", PyInt 4)
         ; ("explosiveness", PyInt 0)
         ; ("fun_fact", PyStr "Iron makes blood red.") ].

Fixpoint assoc {A} (k : string) (tbl : list (string * A)) : option A :=
  match tbl with
  | [] => None
  | (k', a) :: rest => if String.eqb k k' then Some a else assoc k rest
  end.

(** [json.loads] for the runs below.  It agrees with CPython on the three
    documents listed and on the text "Sorry, I cannot help with that.",
    which are the only texts the runs pass to it; on any other text it is a
    stand-in and no statement relies on it. *)
Definition loads (s : string) : result pyval :=
  match assoc s [ (IRON_TEXT, IRON); ("{}", PyDict []); ("[]", PyList []) ] with
  | Some v => Returns v
  | None => Raises (mkExn "JSONDecodeError" "Expecting value: line 1 column 1 (char 0)")
  end.

Definition reply (t : string) : GenerateContentResponse :=
  mkGenResponse [mkCandidate (mkContent [mkPart t])].

(** An upstream that answers every call with the text [t]. *)
Definition replying (t : string) : runtime :=
  {| json_loads := loads; generate_content := fun _ _ _ => Returns (reply t) |}.

(** An upstream whose every call raises [e]. *)
Definition raising (e : exn) : runtime :=
  {| json_loads := loads; generate_content := fun _ _ _ => Raises e |}.

(** An upstream that answers with no candidate (a blocked prompt). *)
Definition no_candidates : runtime :=
  {| json_loads := loads; generate_content := fun _ _ _ => Returns (mkGenResponse []) |}.

Definition TIMEOUT : exn := mkExn "DeadlineExceeded" "504 Deadline Exceeded".

End Fixtures.

(* ===================================================================== *)
(** ** Vocabulary of the properties *)
(* ===================================================================== *)

Module Properties.
Import Py Config Flask View Machine.

(** The upstream call made for [user_query]. *)
Definition call_event (g : module_state) (user_query : pyval) : event :=
  EvGenerate (stats_model g) (prompt_for user_query) (stats_generation_config g).

(** What the view does once the query is extracted. *)
Definition forwarded (g : module_state) (rt : runtime) (user_query : pyval)
  : result Response * world :=
  match upstream_payload rt g user_query with
  | inr parsed =>
      (Returns (jsonify parsed),
       {| globals := g; trace := [call_event g user_query] |})
  | inl e =>
      (Returns (error_response (GENERATION_FAILED_PREFIX ++ exn_str e) 500),
       {| globals := g
        ; trace := [call_event g user_query; EvPrint (PRINT_PREFIX ++ exn_str e)] |})
  end.

(** The view, branch by branch. *)
Inductive path (g : module_state) (rt : runtime) (rq : request)
  : result Response * world -> Prop :=
| path_no_key :
    not_env (API_KEY g) = true ->
    path g rt rq (Returns (error_response MISSING_KEY_MESSAGE 500), fresh g)
| path_get_json_raises e :
    not_env (API_KEY g) = false -> get_json rq = Raises e ->
    path g rt rq (Raises e, fresh g)
| path_validation_raises data e :
    not_env (API_KEY g) = false -> get_json rq = Returns data ->
    query_missing data = Raises e ->
    path g rt rq (Raises e, fresh g)
| path_rejected data :
    not_env (API_KEY g) = false -> get_json rq = Returns data ->
    query_missing data = Returns true ->
    path g rt rq (Returns (error_response MISSING_QUERY_MESSAGE 400), fresh g)
| path_getitem_raises data e :
    not_env (API_KEY g) = false -> get_json rq = Returns data ->
    query_missing data = Returns false -> py_getitem data "query" = Raises e ->
    path g rt rq (Raises e, fresh g)
| path_forwarded data user_query :
    not_env (API_KEY g) = false -> get_json rq = Returns data ->
    query_missing data = Returns false ->
    py_getitem data "query" = Returns user_query ->
    path g rt rq (forwarded g rt user_query).

(** [v] is a JSON object. *)
Definition is_dict (v : pyval) : bool :=
  match v with
  | PyDict _ => true
  | _ => false
  end.

(** The body of [rq] passes validation and [user_query] is its [query]. *)
Definition extracts (rq : request) (user_query : pyval) : Prop :=
  exists data,
    get_json rq = Returns data
    /\ query_missing data = Returns false
    /\ py_getitem data "query" = Returns user_query.

(** The responses the view builds, each with what causes it. *)
Inductive response_shape (g : module_state) (rt : runtime) (rq : request)
  : Response -> Prop :=
| shape_relayed user_query parsed :
    not_env (API_KEY g) = false -> extracts rq user_query ->
    upstream_payload rt g user_query = Returns parsed ->
    response_shape g rt rq {| json := parsed; status_code := 200 |}
| shape_missing_input data :
    not_env (API_KEY g) = false ->
    get_json rq = Returns data -> query_missing data = Returns true ->
    response_shape g rt rq
      {| json := PyDict [("error", PyStr MISSING_QUERY_MESSAGE)]; status_code := 400 |}
| shape_missing_credential :
    not_env (API_KEY g) = true ->
    response_shape g rt rq
      {| json := PyDict [("error", PyStr MISSING_KEY_MESSAGE)]; status_code := 500 |}
| shape_generation_failed user_query e :
    not_env (API_KEY g) = false -> extracts rq user_query ->
    upstream_payload rt g user_query = Raises e ->
    response_shape g rt rq
      {| json := PyDict [("error", PyStr (GENERATION_FAILED_PREFIX ++ exn_str e))]
       ; status_code := 500 |}.

(** The reading of C1 on the code: with the credential set and a body
    [{"query": s}] for a non-empty [s], every 200 carries a Stats Record. *)
Definition every_success_is_stats_record : Prop :=
  forall g rt rq d s r,
    not_env (API_KEY g) = false ->
    get_json rq = Returns (PyDict d) ->
    dict_get "query" d = Some (PyStr s) -> s <> "" ->
    outcome g rt rq = Returns r -> status_code r = 200 ->
    is_stats_record (json r) = true.

(** The upstream honours the requested shape: whatever it replies decodes to
    a value with the seven fields and ratings within 0-10. *)
Definition honours_schema (rt : runtime) : Prop :=
  forall model contents cfg response parsed,
    generate_content rt model contents cfg = Returns response ->
    relay rt response = Returns parsed ->
    is_stats_record parsed = true.

(** The bodies C2 lists: an empty object, an object without [query], an
    object whose [query] is the empty string. *)
Definition query_absent_or_empty (data : pyval) : bool :=
  match data with
  | PyDict d =>
      match dict_get "query" d with
      | None => true
      | Some (PyStr s) => String.eqb s ""
      | Some _ => false
      end
  | _ => false
  end.

Definition absent_or_empty_query_is_400 : Prop :=
  forall g rt rq data,
    not_env (API_KEY g) = false ->
    get_json rq = Returns data -> query_absent_or_empty data = true ->
    exists r, outcome g rt rq = Returns r
      /\ status_code r = 400 /\ is_error_body (json r) = true.

(** The reading of C6 on the code: whatever the view returns is a Stats
    Record with status 200, or an error object with status 400 or 500. *)
Definition only_stats_record_or_error : Prop :=
  forall g rt rq r,
    outcome g rt rq = Returns r ->
    (status_code r = 200 /\ is_stats_record (json r) = true)
    \/ (is_error_body (json r) = true /\ (status_code r = 400 \/ status_code r = 500)).

End Properties.

(* ===================================================================== *)
(** ** Start-up: the module's top level and the [__main__] block *)
(* ===================================================================== *)

Module Startup.
Import Py Config Flask View.

(** [os.environ] *)
Definition environ : Type := list (string * string).

(** [os.getenv(name)]: the first binding of [name], or [None]. *)
Fixpoint getenv (env : environ) (name : string) : option string :=
  match env with
  | [] => None
  | (k, v) :: rest => if String.eqb name k then Some v else getenv rest name
  end.

(** A directory entry. *)
Inductive node : Type := File | Dir.

(** The working directory: what each relative path names, if anything. *)
Definition filesystem : Type := string -> option node.

(** [os.path.exists(p)] *)
Definition os_path_exists (fs : filesystem) (p : string) : bool :=
  match fs p with
  | Some _ => true
  | None => false
  end.

(** What lies outside the script at start-up: [genai.configure] and
    [os.makedirs].  Either may raise an [Exception]. *)
Record system : Type := mkSystem
  { configure : option string -> result unit
  ; makedirs : filesystem -> string -> result filesystem }.

(** The process as the script leaves it: the lines printed, the working
    directory, and the arguments [app.run] was entered with, if it was. *)
Record process : Type := mkProcess
  { console : list string
  ; files : filesystem
  ; running : option (Z * bool) }.

Definition Script : Type -> Type := eitherT exn (state process).

Definition run_script {A} (s : Script A) (p : process) : result A * process :=
  runState (unEitherT s) p.

Definition lift {A} (r : result A) : Script A :=
  match r with
  | inl e => raise e
  | inr a => ret a
  end.

(** [print(line)] *)
Definition echo (line : string) : Script unit :=
  p <- get ;;
  put {| console := console p ++ [line]; files := files p; running := running p |}.

(** [os.makedirs(path)] *)
Definition os_makedirs (sys : system) (path : string) : Script unit :=
  p <- get ;;
  fs' <- lift (makedirs sys (files p) path) ;;
  put {| console := console p; files := fs'; running := running p |}.

(** [app.run(port=port, debug=debug)]: the server is entered. *)
Definition app_run (port : Z) (debug : bool) : Script unit :=
  p <- get ;;
  put {| console := console p; files := files p; running := Some (port, debug) |}.

Definition KEY_NOT_SET_LINE : string :=
  "Error: GEMINI_API_KEY environment variable not set.".
Definition CONFIGURE_ERROR_PREFIX : string := "Error configuring GenerativeAI: ".
Definition STARTING_LINE : string :=
  "Starting Python Flask server for Chem Stats (AI Mode)...".
Definition REMEMBER_LINE : string :=
  "Remember to put your index.html file in the 'static' folder.".

(** Lines 8-62: the top level of the module, up to the routes. *)
Definition top_level (sys : system) (env : environ) : Script module_state :=
  let key := getenv env "GEMINI_API_KEY" in
  (if not_env key then echo KEY_NOT_SET_LINE else ret tt) ;;
  catch (lift (configure sys key))
        (fun e => echo (CONFIGURE_ERROR_PREFIX ++ exn_str e)) ;;
  ret (import_module key).

(** Lines 98-103: the body of [if __name__ == '__main__']. *)
Definition main_block (sys : system) : Script unit :=
  echo STARTING_LINE ;;
  p <- get ;;
  (if negb (os_path_exists (files p) "static")
   then os_makedirs sys "static"
   else ret tt) ;;
  echo REMEMBER_LINE ;;
  app_run 5001 true.

(** The file run as a script: the top level, then the [__main__] block. *)
Definition script (sys : system) (env : environ) : Script module_state :=
  g <- top_level sys env ;;
  main_block sys ;;
  ret g.

(** A process that has printed nothing and runs no server yet. *)
Definition boot (fs : filesystem) : process :=
  {| console := []; files := fs; running := None |}.

(** Working directories and systems for the runs below. *)
Definition empty_directory : filesystem := fun _ => None.

Definition only (name : string) (n : node) : filesystem :=
  fun p => if String.eqb p name then Some n else None.

Definition add_directory (fs : filesystem) (path : string) : filesystem :=
  fun p => if String.eqb p path then Some Dir else fs p.

(** [genai.configure] accepts the key; [os.makedirs] creates the directory. *)
Definition healthy : system :=
  {| configure := fun _ => Returns tt
   ; makedirs := fun fs path => Returns (add_directory fs path) |}.

(** [os.makedirs] is refused. *)
Definition read_only : system :=
  {| configure := fun _ => Returns tt
   ; makedirs := fun _ _ =>
       Raises (mkExn "PermissionError" "[Errno 13] Permission denied: 'static'") |}.

Definition BAD_KEY : exn := mkExn "ValueError" "invalid API key".

(** [genai.configure] raises. *)
Definition rejecting : system :=
  {| configure := fun _ => Raises BAD_KEY
   ; makedirs := fun fs path => Returns (add_directory fs path) |}.

End Startup.

(* ===================================================================== *)
(** ** Requests served one after another *)
(* ===================================================================== *)

Module Session.
Import Py Config Flask View.

(** The stats requests of one process, in the order they arrive, each with
    what the outside does during it.  Every request starts from the module
    as the previous one left it. *)
Fixpoint serve_all (g : module_state) (reqs : list (runtime * request))
  : list (result Response * list event) * module_state :=
  match reqs with
  | [] => ([], g)
  | (rt, rq) :: rest =>
      let (r, w) := serve g rt rq in
      let (answers, g') := serve_all (globals w) rest in
      ((r, trace w) :: answers, g')
  end.

(** The same requests, each served alone against [g]. *)
Definition serve_each (g : module_state) (reqs : list (runtime * request))
  : list (result Response * list event) :=
  map (fun x => (outcome g (fst x) (snd x), effects g (fst x) (snd x))) reqs.

End Session.

(* ===================================================================== *)
(** ** Further vocabulary *)
(* ===================================================================== *)

Module Observations.
Import Py Config Flask View.

(** [v] is [None], a [bool] or a number: not a container. *)
Definition is_scalar (v : pyval) : bool :=
  match v with
  | PyNone => true
  | PyBool _ => true
  | PyInt _ => true
  | PyFloat _ => true
  | _ => false
  end.


(** [needle] occurs in [hay]. *)
Definition occurs_in (needle hay : string) : Prop :=
  exists before after, hay = before ++ needle ++ after.

End Observations.

(* ===================================================================== *)
(** ** The paths through the view *)
(* ===================================================================== *)

Module Paths.
Import Py Config Flask View Machine Properties.

Ltac open_view :=
  unfold outcome, effects, module_after, serve, run, get_stats, fresh; cbn.

(** Two steps of the machine finish every request, with the view's outcome
    and world. *)
Lemma serve_machine g rt rq :
  verdict (steps rt rq 2 (start g)) = Some (serve g rt rq).
Proof.
  unfold serve, run, get_stats, start, fresh; cbn.
  unfold enter; cbn.
  destruct (not_env (API_KEY g)); [reflexivity|].
  destruct (get_json rq) as [e|data]; cbn; [reflexivity|].
  destruct (query_missing data) as [e|[|]]; cbn; [reflexivity|reflexivity|].
  destruct (py_getitem data "query") as [e|q]; cbn; [reflexivity|].
  unfold resume, upstream_payload, relay, stats_text; cbn.
  destruct (generate_content rt _ _ _) as [e|resp]; cbn; [reflexivity|].
  destruct (candidates resp) as [|c cs]; cbn; [reflexivity|].
  destruct (parts (content c)) as [|p ps]; cbn; [reflexivity|].
  destruct (json_loads rt (text p)) as [e|v]; cbn; reflexivity.
Qed.

(** The credential check comes first. *)
Lemma serve_no_key g rt rq :
  not_env (API_KEY g) = true ->
  serve g rt rq = (Returns (error_response MISSING_KEY_MESSAGE 500), fresh g).
Proof. intros Hk. open_view. rewrite Hk. reflexivity. Qed.

Section WithCredential.

Variables (g : module_state) (rt : runtime) (rq : request).
Hypothesis Hk : not_env (API_KEY g) = false.

(** An exception of [request.get_json()] leaves the view. *)
Lemma serve_get_json_raises e :
  get_json rq = Raises e ->
  serve g rt rq = (Raises e, fresh g).
Proof. intros Hj. open_view. rewrite Hk; cbn. rewrite Hj. reflexivity. Qed.

(** So does one of the validation itself. *)
Lemma serve_validation_raises data e :
  get_json rq = Returns data ->
  query_missing data = Raises e ->
  serve g rt rq = (Raises e, fresh g).
Proof.
  intros Hj Hm. open_view. rewrite Hk; cbn. rewrite Hj; cbn.
  rewrite Hm. reflexivity.
Qed.

(** A body that fails validation is answered at once. *)
Lemma serve_rejected data :
  get_json rq = Returns data ->
  query_missing data = Returns true ->
  serve g rt rq = (Returns (error_response MISSING_QUERY_MESSAGE 400), fresh g).
Proof.
  intros Hj Hm. open_view. rewrite Hk; cbn. rewrite Hj; cbn.
  rewrite Hm. reflexivity.
Qed.

(** [data['query']] is evaluated before the [try]. *)
Lemma serve_getitem_raises data e :
  get_json rq = Returns data ->
  query_missing data = Returns false -> py_getitem data "query" = Raises e ->
  serve g rt rq = (Raises e, fresh g).
Proof.
  intros Hj Hm Hq. open_view. rewrite Hk; cbn. rewrite Hj; cbn.
  rewrite Hm; cbn. rewrite Hq. reflexivity.
Qed.

(** From there on the [try] decides. *)
Lemma serve_forwarded data user_query :
  get_json rq = Returns data ->
  query_missing data = Returns false ->
  py_getitem data "query" = Returns user_query ->
  serve g rt rq = forwarded g rt user_query.
Proof.
  intros Hj Hm Hq. open_view. rewrite Hk; cbn. rewrite Hj; cbn.
  rewrite Hm; cbn. rewrite Hq; cbn.
  unfold forwarded, upstream_payload, relay, stats_text, call_event; cbn.
  destruct (generate_content rt _ _ _) as [e|resp]; cbn; [reflexivity|].
  destruct (candidates resp) as [|c cs]; cbn; [reflexivity|].
  destruct (parts (content c)) as [|p ps]; cbn; [reflexivity|].
  destruct (json_loads rt (text p)) as [e|v]; cbn; reflexivity.
Qed.

End WithCredential.

(** A JSON object with the key [query] passes validation, whatever the key
    is bound to. *)
Lemma object_with_query_passes d v :
  dict_get "query" d = Some v ->
  query_missing (PyDict d) = Returns false
  /\ py_getitem (PyDict d) "query" = Returns v.
Proof.
  intros Hd. unfold query_missing, py_not, py_getitem, py_in, dict_has; cbn.
  rewrite Hd. destruct d as [|kv d']; [discriminate|]. split; reflexivity.
Qed.

Lemma serve_object_with_query g rt rq d v :
  not_env (API_KEY g) = false -> get_json rq = Returns (PyDict d) ->
  dict_get "query" d = Some v ->
  serve g rt rq = forwarded g rt v.
Proof.
  intros Hk Hj Hd. destruct (object_with_query_passes d v Hd) as [Hm Hq].
  exact (serve_forwarded g rt rq Hk (PyDict d) v Hj Hm Hq).
Qed.

(** A falsy body is rejected before membership is tested. *)
Lemma falsy_is_missing data : py_not data = true -> query_missing data = Returns true.
Proof. intros H. unfold query_missing. rewrite H. reflexivity. Qed.

Lemma object_without_query_is_missing d :
  dict_has "query" d = false -> query_missing (PyDict d) = Returns true.
Proof.
  intros H. unfold query_missing. destruct (py_not (PyDict d)); [reflexivity|].
  cbn. rewrite H. reflexivity.
Qed.

(** [query_missing] answers [true] only on a falsy value or on a container
    that does not hold the key. *)
Lemma query_missing_true data :
  query_missing data = Returns true ->
  py_not data = true \/ py_in "query" data = Returns false.
Proof.
  unfold query_missing. destruct (py_not data); [left; reflexivity|].
  destruct (py_in "query" data) as [e|[|]]; cbn; intros H;
    try discriminate; right; reflexivity.
Qed.

(** The outcomes of [forwarded]. *)
Lemma forwarded_ok g rt user_query parsed :
  upstream_payload rt g user_query = Returns parsed ->
  forwarded g rt user_query =
    (Returns (jsonify parsed), {| globals := g; trace := [call_event g user_query] |}).
Proof. intros H. unfold forwarded. rewrite H. reflexivity. Qed.


Lemma forwarded_globals g rt user_query : globals (snd (forwarded g rt user_query)) = g.
Proof. unfold forwarded. destruct (upstream_payload rt g user_query); reflexivity. Qed.

Lemma forwarded_calls g rt user_query :
  upstream_calls (trace (snd (forwarded g rt user_query))) = [call_event g user_query].
Proof. unfold forwarded. destruct (upstream_payload rt g user_query); reflexivity. Qed.

(** Every 200 of [forwarded] carries the decoded upstream value; every other
    status it gives is 500. *)
Lemma forwarded_status g rt user_query :
  exists r, fst (forwarded g rt user_query) = Returns r
    /\ ((status_code r = 200 /\ upstream_payload rt g user_query = Returns (json r))
        \/ (exists e, upstream_payload rt g user_query = Raises e
              /\ r = error_response (GENERATION_FAILED_PREFIX ++ exn_str e) 500)).
Proof.
  unfold forwarded. destruct (upstream_payload rt g user_query) as [e|v].
  - eexists; split; [reflexivity|]. right. exists e. split; reflexivity.
  - eexists; split; [reflexivity|]. left. split; reflexivity.
Qed.

Lemma serve_path g rt rq : path g rt rq (serve g rt rq).
Proof.
  destruct (not_env (API_KEY g)) eqn:Hk.
  { rewrite (serve_no_key g rt rq Hk). now constructor. }
  destruct (get_json rq) as [e|data] eqn:Hj.
  { rewrite (serve_get_json_raises g rt rq Hk e Hj). now constructor. }
  destruct (query_missing data) as [e|[|]] eqn:Hm.
  { rewrite (serve_validation_raises g rt rq Hk data e Hj Hm).
    now apply path_validation_raises with data. }
  { rewrite (serve_rejected g rt rq Hk data Hj Hm).
    now apply path_rejected with data. }
  destruct (py_getitem data "query") as [e|q] eqn:Hq.
  { rewrite (serve_getitem_raises g rt rq Hk data e Hj Hm Hq).
    now apply path_getitem_raises with data. }
  rewrite (serve_forwarded g rt rq Hk data q Hj Hm Hq).
  now apply path_forwarded with data.
Qed.

(** No step leaves a finished configuration. *)
Lemma terminal_is_stuck rt rq c : terminal (fst c) = true -> step rt rq c = None.
Proof. destruct c as [[ | q | r | o] w]; cbn; intros H; congruence. Qed.

Lemma reaches_from_terminal rt rq c c' :
  terminal (fst c) = true -> reaches rt rq c c' -> c' = c.
Proof.
  intros Ht Hr. destruct Hr as [c | c c' c'' Hs _]; [reflexivity|].
  rewrite (terminal_is_stuck rt rq c Ht) in Hs. discriminate Hs.
Qed.

(** The upstream's answer finishes the request. *)
Lemma resume_terminal rt user_query w : terminal (fst (resume rt user_query w)) = true.
Proof. unfold resume. destruct (upstream_payload rt (globals w) user_query); reflexivity. Qed.

End Paths.

(* ===================================================================== *)
(** ** Properties of the stats endpoint *)
(* ===================================================================== *)

Import Py Config Flask View Machine Fixtures Properties Paths.

(** *** Success and the Stats Record *)

(** C1, counterexample: for [{"query": "Fe"}], an upstream that answers with
    the text [{}] gets [{}] relayed with status 200; none of the seven fields
    is there. *)
Lemma success_without_fields :
  outcome with_key (replying "{}") request_Fe
    = Returns {| json := PyDict []; status_code := 200 |}
  /\ has_required_fields STATS_SCHEMA (PyDict []) = false
  /\ ~ every_success_is_stats_record.
Proof.
  split; [reflexivity|]. split; [reflexivity|].
  intros H.
  specialize (H with_key (replying "{}") request_Fe
                [("query", PyStr "Fe")] "Fe"
                {| json := PyDict []; status_code := 200 |}
                eq_refl eq_refl eq_refl).
  assert (Hne : "Fe" <> "") by discriminate.
  specialize (H Hne eq_refl eq_refl). discriminate H.
Qed.

(** C1, amended: for every valid non-empty query string, a successful
    (status-200) call returns the value decoded from the upstream reply; it
    holds all seven required fields, with [stability], [reactivity] and
    [explosiveness] in [0,10], whenever the upstream honours the requested
    schema. *)
Theorem success_relays_upstream_record g rt rq d s r :
  not_env (API_KEY g) = false ->
  get_json rq = Returns (PyDict d) ->
  dict_get "query" d = Some (PyStr s) -> s <> "" ->
  outcome g rt rq = Returns r -> status_code r = 200 ->
  upstream_payload rt g (PyStr s) = Returns (json r)
  /\ (honours_schema rt -> is_stats_record (json r) = true).
Proof.
  intros Hk Hj Hd _ Ho Hs. unfold outcome in Ho.
  rewrite (serve_object_with_query g rt rq d (PyStr s) Hk Hj Hd) in Ho.
  destruct (forwarded_status g rt (PyStr s)) as [r' [Hr' Hcase]].
  rewrite Hr' in Ho. injection Ho as <-.
  destruct Hcase as [[_ Hp] | [e [_ ->]]]; [|discriminate Hs].
  split; [exact Hp|].
  intros Hh. unfold upstream_payload in Hp.
  destruct (generate_content rt (stats_model g) (prompt_for (PyStr s))
              (stats_generation_config g)) as [e|response] eqn:Hg;
    [discriminate Hp|].
  exact (Hh _ _ _ response (json r') Hg Hp).
Qed.

Lemma replying_iron_honours_schema : honours_schema (replying IRON_TEXT).
Proof.
  intros model contents cfg response parsed Hg Hr.
  cbn in Hg. injection Hg as <-. cbn in Hr. injection Hr as <-. reflexivity.
Defined.

Lemma success_relays_upstream_record_witness :
  upstream_payload (replying IRON_TEXT) with_key (PyStr "Fe") = Returns IRON
  /\ is_stats_record IRON = true.
Proof.
  assert (Hne : "Fe" <> "") by discriminate.
  destruct (success_relays_upstream_record with_key (replying IRON_TEXT)
              request_Fe [("query", PyStr "Fe")] "Fe"
              {| json := IRON; status_code := 200 |}
              eq_refl eq_refl eq_refl Hne eq_refl eq_refl) as [Hp Hrec].
  split; [exact Hp | exact (Hrec replying_iron_honours_schema)].
Defined.

(** *** Input validation *)

(** C2, counterexample: the body [{"query": ""}] passes validation and is
    answered with what the upstream replied, status 200. *)
Lemma empty_query_is_forwarded :
  query_absent_or_empty (PyDict [("query", PyStr "")]) = true
  /\ outcome with_key (replying IRON_TEXT) request_empty_query
       = Returns {| json := IRON; status_code := 200 |}
  /\ ~ absent_or_empty_query_is_400.
Proof.
  split; [reflexivity|]. split; [reflexivity|].
  intros H.
  destruct (H with_key (replying IRON_TEXT) request_empty_query
              (PyDict [("query", PyStr "")]) eq_refl eq_refl eq_refl)
    as [r [Ho [Hs _]]].
  cbv in Ho. injection Ho as <-. discriminate Hs.
Qed.

(** C2, amended: with the credential present, every request whose JSON body
    decodes to an empty (falsy) value or to an object without the key
    [query] is answered with status 400 and an error body; nothing is sent
    upstream. *)
Theorem missing_query_is_400 g rt rq data :
  not_env (API_KEY g) = false ->
  get_json rq = Returns data ->
  py_not data = true \/ (exists d, data = PyDict d /\ dict_has "query" d = false) ->
  outcome g rt rq = Returns (error_response MISSING_QUERY_MESSAGE 400)
  /\ status_code (error_response MISSING_QUERY_MESSAGE 400) = 400
  /\ is_error_body (json (error_response MISSING_QUERY_MESSAGE 400)) = true
  /\ effects g rt rq = [].
Proof.
  intros Hk Hj Hcase.
  assert (Hm : query_missing data = Returns true).
  { destruct Hcase as [Hf | [d [-> Hd]]].
    - exact (falsy_is_missing data Hf).
    - exact (object_without_query_is_missing d Hd). }
  unfold outcome, effects. rewrite (serve_rejected g rt rq Hk data Hj Hm).
  repeat split.
Qed.

Lemma missing_query_is_400_witness :
  outcome with_key (raising TIMEOUT) request_empty_object
    = Returns (error_response MISSING_QUERY_MESSAGE 400)
  /\ outcome with_key (raising TIMEOUT) request_no_query
    = Returns (error_response MISSING_QUERY_MESSAGE 400).
Proof.
  split.
  - apply (missing_query_is_400 with_key (raising TIMEOUT) request_empty_object
             (PyDict []) eq_refl eq_refl).
    left. reflexivity.
  - apply (missing_query_is_400 with_key (raising TIMEOUT) request_no_query
             (PyDict [("formula", PyStr "H2O")]) eq_refl eq_refl).
    right. eexists. split; reflexivity.
Defined.

(** *** The credential *)

(** C3: when [GEMINI_API_KEY] is unset, every request is answered with
    status 500 and the error object carrying the fixed message, whatever the
    body and whatever the upstream would do. *)
Theorem missing_credential_is_500 g rt rq :
  API_KEY g = None ->
  outcome g rt rq
    = Returns {| json := PyDict [("error", PyStr "Server is missing GEMINI_API_KEY")]
               ; status_code := 500 |}.
Proof.
  intros Hk. unfold outcome. rewrite serve_no_key; [reflexivity|].
  rewrite Hk. reflexivity.
Qed.

Lemma missing_credential_is_500_witness :
  outcome without_key (replying IRON_TEXT) request_Fe
    = Returns {| json := PyDict [("error", PyStr "Server is missing GEMINI_API_KEY")]
               ; status_code := 500 |}.
Proof.
  exact (missing_credential_is_500 without_key (replying IRON_TEXT) request_Fe eq_refl).
Defined.

(** *** Upstream failures *)



(** *** The relay *)

(** C5: when the text of the upstream reply decodes, the response body is
    the decoded value itself with status 200, for every decoded value: no
    field, type or range is checked. *)
Theorem parsed_payload_is_relayed g rt rq d user_query response t parsed :
  not_env (API_KEY g) = false ->
  get_json rq = Returns (PyDict d) ->
  dict_get "query" d = Some user_query ->
  generate_content rt (stats_model g) (prompt_for user_query)
    (stats_generation_config g) = Returns response ->
  stats_text response = Returns t ->
  json_loads rt t = Returns parsed ->
  outcome g rt rq = Returns {| json := parsed; status_code := 200 |}.
Proof.
  intros Hk Hj Hd Hg Ht Hl.
  assert (Hp : upstream_payload rt g user_query = Returns parsed).
  { unfold upstream_payload. rewrite Hg. unfold relay. rewrite Ht. exact Hl. }
  unfold outcome.
  rewrite (serve_object_with_query g rt rq d user_query Hk Hj Hd).
  rewrite (forwarded_ok g rt user_query parsed Hp). reflexivity.
Qed.

Lemma parsed_payload_is_relayed_witness :
  outcome with_key (replying IRON_TEXT) request_Fe
    = Returns {| json := IRON; status_code := 200 |}
  /\ outcome with_key (replying "[]") request_Fe
    = Returns {| json := PyList []; status_code := 200 |}.
Proof.
  split.
  - exact (parsed_payload_is_relayed with_key (replying IRON_TEXT) request_Fe
             [("query", PyStr "Fe")] (PyStr "Fe") (reply IRON_TEXT) IRON_TEXT IRON
             eq_refl eq_refl eq_refl eq_refl eq_refl eq_refl).
  - exact (parsed_payload_is_relayed with_key (replying "[]") request_Fe
             [("query", PyStr "Fe")] (PyStr "Fe") (reply "[]") "[]" (PyList [])
             eq_refl eq_refl eq_refl eq_refl eq_refl eq_refl).
Defined.

(** *** The shapes of a response *)

(** C6, counterexample: an upstream that answers with the text [[]] gets the
    empty list relayed with status 200: neither a Stats Record nor an error
    object. *)
Lemma success_with_a_list :
  outcome with_key (replying "[]") request_Fe
    = Returns {| json := PyList []; status_code := 200 |}
  /\ is_stats_record (PyList []) = false
  /\ is_error_body (PyList []) = false
  /\ ~ only_stats_record_or_error.
Proof.
  split; [reflexivity|]. split; [reflexivity|]. split; [reflexivity|].
  intros H.
  destruct (H with_key (replying "[]") request_Fe
              {| json := PyList []; status_code := 200 |} eq_refl)
    as [[_ Hrec] | [Herr _]]; discriminate.
Qed.

(** C6, amended: every response the view returns is either the value decoded
    from the upstream reply, as JSON with status 200, or a JSON object with
    an [error] string field and status 400 (missing input) or 500 (missing
    credential, generation failure); it returns nothing else, and it does
    return whenever the credential is missing or the body decodes to an
    object or to a falsy value. *)
Theorem returned_responses_have_four_shapes g rt rq :
  (forall r, outcome g rt rq = Returns r ->
     response_shape g rt rq r
     /\ (status_code r = 200 \/ status_code r = 400 \/ status_code r = 500)
     /\ (status_code r <> 200 -> is_error_body (json r) = true))
  /\ (not_env (API_KEY g) = true
      \/ (exists data, get_json rq = Returns data
            /\ (py_not data = true \/ exists d, data = PyDict d)) ->
      exists r, outcome g rt rq = Returns r).
Proof.
  split.
  - intros r Ho. unfold outcome in Ho.
    destruct (serve_path g rt rq) as
      [Hk | e Hk Hj | data e Hk Hj Hm | data Hk Hj Hm
       | data e Hk Hj Hm Hq | data q Hk Hj Hm Hq]; cbn in Ho;
      try discriminate Ho.
    + injection Ho as <-.
      split; [exact (shape_missing_credential g rt rq Hk)|].
      split; [auto|]. reflexivity.
    + injection Ho as <-.
      split; [exact (shape_missing_input g rt rq data Hk Hj Hm)|].
      split; [auto|]. reflexivity.
    + assert (Hx : extracts rq q) by (exists data; auto).
      unfold forwarded in Ho.
      destruct (upstream_payload rt g q) as [e|v] eqn:Hp;
        cbn in Ho; injection Ho as <-.
      * split; [exact (shape_generation_failed g rt rq q e Hk Hx Hp)|].
        split; [auto|]. reflexivity.
      * split; [exact (shape_relayed g rt rq q v Hk Hx Hp)|].
        split; [auto|]. intros Hne. now elim Hne.
  - intros [Hk | [data [Hj Hd]]]; unfold outcome.
    + rewrite (serve_no_key g rt rq Hk). eexists; reflexivity.
    + destruct (not_env (API_KEY g)) eqn:Hk.
      { rewrite (serve_no_key g rt rq Hk). eexists; reflexivity. }
      destruct Hd as [Hf | [d ->]].
      * rewrite (serve_rejected g rt rq Hk data Hj (falsy_is_missing data Hf)).
        eexists; reflexivity.
      * destruct (dict_get "query" d) as [v|] eqn:Hq.
        -- rewrite (serve_object_with_query g rt rq d v Hk Hj Hq).
           destruct (forwarded_status g rt v) as [r [Hr _]].
           exists r. exact Hr.
        -- assert (Hh : dict_has "query" d = false)
             by (unfold dict_has; rewrite Hq; reflexivity).
           rewrite (serve_rejected g rt rq Hk (PyDict d) Hj
                      (object_without_query_is_missing d Hh)).
           eexists; reflexivity.
Qed.

Lemma returned_responses_have_four_shapes_witness :
  response_shape with_key (replying "[]") request_Fe
    {| json := PyList []; status_code := 200 |}
  /\ exists r, outcome with_key no_candidates request_Fe = Returns r.
Proof.
  split.
  - exact (proj1 (proj1 (returned_responses_have_four_shapes
                           with_key (replying "[]") request_Fe)
                    {| json := PyList []; status_code := 200 |} eq_refl)).
  - apply (proj2 (returned_responses_have_four_shapes
                    with_key no_candidates request_Fe)).
    right. exists (PyDict [("query", PyStr "Fe")]). split; [reflexivity|].
    right. eexists; reflexivity.
Defined.

(** *** One upstream call *)

(** C7: a request invokes the upstream capability at most once: the effects
    of a request hold either no upstream call or exactly one, also when that
    call fails; as a machine, the view finishes within two steps, no step
    leaves [Done] or [Failed], and after [AwaitingResponse] the next
    configuration is finished. *)
Theorem upstream_called_at_most_once g rt rq :
  (upstream_calls (effects g rt rq) = []
   \/ exists user_query, upstream_calls (effects g rt rq) = [call_event g user_query])
  /\ (length (upstream_calls (effects g rt rq)) <= 1)%nat
  /\ verdict (steps rt rq 2 (start g)) = Some (serve g rt rq)
  /\ (forall c c', terminal (fst c) = true -> reaches rt rq c c' -> c' = c)
  /\ (forall c c', awaiting (fst c) = true -> reaches rt rq c c' ->
        c' = c \/ terminal (fst c') = true).
Proof.
  assert (Hcalls :
    upstream_calls (effects g rt rq) = []
    \/ exists user_query, upstream_calls (effects g rt rq) = [call_event g user_query]).
  { unfold effects.
    destruct (serve_path g rt rq) as
      [Hk | e Hk Hj | data e Hk Hj Hm | data Hk Hj Hm
       | data e Hk Hj Hm Hq | data q Hk Hj Hm Hq];
      try (left; reflexivity).
    right. exists q. apply forwarded_calls. }
  split; [exact Hcalls|]. split.
  { destruct Hcalls as [-> | [q ->]]; cbn; lia. }
  split; [apply serve_machine|]. split.
  { intros c c'. apply reaches_from_terminal. }
  intros c c' Ha Hr. destruct Hr as [c | c c1 c2 Hs Hr]; [left; reflexivity|].
  right. destruct c as [[ | q | r | o] w]; cbn in Ha; try discriminate Ha.
  cbn in Hs. injection Hs as <-.
  rewrite (reaches_from_terminal rt rq _ c2 (resume_terminal rt q w) Hr).
  apply resume_terminal.
Qed.

Lemma upstream_called_at_most_once_witness :
  (length (upstream_calls (effects with_key (raising TIMEOUT) request_Fe)) <= 1)%nat
  /\ (let c := (AwaitingResponse (PyStr "Fe"), fresh with_key) in
      let c' := resume (raising TIMEOUT) (PyStr "Fe") (fresh with_key) in
      c' = c \/ terminal (fst c') = true).
Proof.
  destruct (upstream_called_at_most_once with_key (raising TIMEOUT) request_Fe)
    as [_ [Hle [_ [_ Hawait]]]].
  split; [exact Hle|].
  apply Hawait; [reflexivity|].
  apply reaches_step with (resume (raising TIMEOUT) (PyStr "Fe") (fresh with_key));
    [reflexivity | apply reaches_refl].
Defined.

(** *** Module state *)

(** C8: a request leaves every module-level binding as it found it (the
    credential, the prompt, the schema, the model and its generation
    configuration), so a request served after another one is served exactly
    as if it had come first. *)
Theorem module_state_is_unchanged g rt rq :
  module_after g rt rq = g
  /\ API_KEY (module_after g rt rq) = API_KEY g
  /\ stats_model (module_after g rt rq) = stats_model g
  /\ stats_generation_config (module_after g rt rq) = stats_generation_config g
  /\ prompt_text (module_after g rt rq) = prompt_text g
  /\ stats_schema (module_after g rt rq) = stats_schema g
  /\ (forall rt' rq', serve (module_after g rt rq) rt' rq' = serve g rt' rq').
Proof.
  assert (H : module_after g rt rq = g).
  { unfold module_after.
    destruct (serve_path g rt rq) as
      [Hk | e Hk Hj | data e Hk Hj Hm | data Hk Hj Hm
       | data e Hk Hj Hm Hq | data q Hk Hj Hm Hq];
      try reflexivity.
    apply forwarded_globals. }
  rewrite H. repeat split.
Qed.

(** *** The credential check comes first *)

(** C9: when [GEMINI_API_KEY] is unset, any two requests get the same
    answer, the fixed error with status 500, with no effect at all: the body
    is not looked at, so a body without [query] gets 500 and not 400. *)
Theorem missing_credential_hides_the_body g rt1 rq1 rt2 rq2 :
  API_KEY g = None ->
  serve g rt1 rq1 = serve g rt2 rq2
  /\ outcome g rt1 rq1 = Returns (error_response MISSING_KEY_MESSAGE 500)
  /\ status_code (error_response MISSING_KEY_MESSAGE 500) = 500
  /\ effects g rt1 rq1 = [].
Proof.
  intros Hk.
  assert (Hn : not_env (API_KEY g) = true) by (rewrite Hk; reflexivity).
  unfold outcome, effects.
  rewrite (serve_no_key g rt1 rq1 Hn), (serve_no_key g rt2 rq2 Hn).
  repeat split.
Qed.

Lemma missing_credential_hides_the_body_witness :
  serve without_key (replying IRON_TEXT) request_Fe
    = serve without_key (raising TIMEOUT) request_no_query
  /\ outcome without_key (raising TIMEOUT) request_no_query
     = Returns (error_response MISSING_KEY_MESSAGE 500).
Proof.
  destruct (missing_credential_hides_the_body without_key
              (replying IRON_TEXT) request_Fe (raising TIMEOUT) request_no_query
              eq_refl) as [Heq [Ho _]].
  split; [exact Heq|]. rewrite <- Ho. unfold outcome. rewrite Heq. reflexivity.
Defined.

(** *** What validation accepts *)

(** C10: with the credential present, a JSON object that has the key [query]
    passes validation whatever the key is bound to (an empty string, null, a
    number, a nested object), and that value is forwarded: the one upstream
    call is made on the module's model and generation configuration with
    the contents "Generate stats for: " followed by the value; a 400 is
    returned only for a falsy body, an object without the key, or a body
    that is not an object, and it is returned for every falsy body and every
    container that does not hold the key. *)
Theorem validation_only_checks_the_key g rt rq data :
  not_env (API_KEY g) = false ->
  get_json rq = Returns data ->
  (forall d v, data = PyDict d -> dict_get "query" d = Some v ->
     query_missing data = Returns false
     /\ upstream_calls (effects g rt rq)
        = [EvGenerate (stats_model g)
             [Lit "Generate stats for: "; Interp v]
             (stats_generation_config g)]
     /\ exists r, outcome g rt rq = Returns r
          /\ (status_code r = 200 \/ status_code r = 500))
  /\ (forall r, outcome g rt rq = Returns r -> status_code r = 400 ->
        py_not data = true
        \/ (exists d, data = PyDict d /\ dict_has "query" d = false)
        \/ is_dict data = false)
  /\ (py_not data = true \/ py_in "query" data = Returns false ->
      outcome g rt rq = Returns (error_response MISSING_QUERY_MESSAGE 400)).
Proof.
  intros Hk Hj. split; [|split].
  - intros d v -> Hd.
    destruct (object_with_query_passes d v Hd) as [Hm _].
    split; [exact Hm|].
    unfold effects, outcome.
    rewrite (serve_object_with_query g rt rq d v Hk Hj Hd).
    split; [exact (forwarded_calls g rt v)|].
    destruct (forwarded_status g rt v) as [r [Hr Hcase]].
    exists r. split; [exact Hr|].
    destruct Hcase as [[Hs _] | [e [_ ->]]]; [left; exact Hs | right; reflexivity].
  - intros r Ho Hs.
    destruct data as [ | b | n | f | s | l | d];
      try (right; right; reflexivity).
    destruct (dict_get "query" d) as [v|] eqn:Hd.
    + exfalso. unfold outcome in Ho.
      rewrite (serve_object_with_query g rt rq d v Hk Hj Hd) in Ho.
      destruct (forwarded_status g rt v) as [r' [Hr' Hcase]].
      rewrite Hr' in Ho. injection Ho as <-.
      destruct Hcase as [[Hs' _] | [e [_ ->]]]; [lia | discriminate Hs].
    + right; left. exists d. split; [reflexivity|].
      unfold dict_has. rewrite Hd. reflexivity.
  - intros Hcase.
    assert (Hm : query_missing data = Returns true).
    { destruct Hcase as [Hf | Hin]; [exact (falsy_is_missing data Hf)|].
      unfold query_missing. destruct (py_not data); [reflexivity|].
      rewrite Hin. reflexivity. }
    unfold outcome. rewrite (serve_rejected g rt rq Hk data Hj Hm). reflexivity.
Qed.

Lemma validation_only_checks_the_key_witness :
  upstream_calls (effects with_key (replying IRON_TEXT) request_empty_query)
    = [EvGenerate (stats_model with_key)
         [Lit "Generate stats for: "; Interp (PyStr "")]
         (stats_generation_config with_key)]
  /\ upstream_calls (effects with_key (replying IRON_TEXT) (body [("query", PyNone)]))
    = [EvGenerate (stats_model with_key)
         [Lit "Generate stats for: "; Interp PyNone]
         (stats_generation_config with_key)]
  /\ upstream_calls (effects with_key (replying IRON_TEXT) (body [("query", PyInt 26)]))
    = [EvGenerate (stats_model with_key)
         [Lit "Generate stats for: "; Interp (PyInt 26)]
         (stats_generation_config with_key)]
  /\ upstream_calls
       (effects with_key (replying IRON_TEXT)
          (body [("query", PyDict [("symbol", PyStr "Fe")])]))
    = [EvGenerate (stats_model with_key)
         [Lit "Generate stats for: "; Interp (PyDict [("symbol", PyStr "Fe")])]
         (stats_generation_config with_key)].
Proof.
  split; [|split; [|split]].
  - exact (proj1 (proj2 (proj1
      (validation_only_checks_the_key with_key (replying IRON_TEXT)
         request_empty_query _ eq_refl eq_refl) _ (PyStr "") eq_refl eq_refl))).
  - exact (proj1 (proj2 (proj1
      (validation_only_checks_the_key with_key (replying IRON_TEXT)
         (body [("query", PyNone)]) _ eq_refl eq_refl) _ PyNone eq_refl eq_refl))).
  - exact (proj1 (proj2 (proj1
      (validation_only_checks_the_key with_key (replying IRON_TEXT)
         (body [("query", PyInt 26)]) _ eq_refl eq_refl) _ (PyInt 26) eq_refl eq_refl))).
  - exact (proj1 (proj2 (proj1
      (validation_only_checks_the_key with_key (replying IRON_TEXT)
         (body [("query", PyDict [("symbol", PyStr "Fe")])]) _ eq_refl eq_refl)
      _ (PyDict [("symbol", PyStr "Fe")]) eq_refl eq_refl))).
Defined.

(* ===================================================================== *)
(** ** Further properties of the code *)
(* ===================================================================== *)

Module Facts.
Import Py Config Flask View Machine Properties Paths Observations.

(** [String.prefix] decides "starts with". *)
Lemma prefix_spec a b : String.prefix a b = true <-> exists rest, b = a ++ rest.
Proof.
  revert b. induction a as [|c a IH]; intros b; cbn.
  - split; [intros _; exists b; reflexivity | intros _; destruct b; reflexivity].
  - destruct b as [|c' b]; cbn.
    + split; [discriminate | intros [rest H]; discriminate H].
    + destruct (Ascii.ascii_dec c c') as [<-|Hne].
      * rewrite IH. split; intros [rest H]; exists rest.
        -- now rewrite H.
        -- now injection H.
      * split; [discriminate|]. intros [rest H]. injection H as H1 _.
        now elim Hne.
Qed.

(** [str_contains] decides "occurs in". *)
Lemma str_contains_spec needle hay :
  str_contains needle hay = true <-> occurs_in needle hay.
Proof.
  unfold occurs_in. induction hay as [|c hay IH].
  - cbn [str_contains]. rewrite orb_false_r, prefix_spec. split.
    + intros [rest H]. exists "", rest. exact H.
    + intros [[|c b] [after H]]; [exists after; exact H | discriminate H].
  - cbn [str_contains]. rewrite orb_true_iff, prefix_spec, IH. split.
    + intros [[rest H] | [before [after H]]].
      * exists "", rest. exact H.
      * exists (String c before), after. cbn. now rewrite H.
    + intros [[|c' before] [after H]].
      * left. exists after. exact H.
      * right. cbn in H. injection H as _ H. exists before, after. exact H.
Qed.

(** [existsb (eq_str k)] decides membership of the [str] [k]. *)
Lemma existsb_eq_str k l : existsb (eq_str k) l = true <-> In (PyStr k) l.
Proof.
  rewrite existsb_exists. split.
  - intros [x [Hin Hx]]. destruct x; cbn in Hx; try discriminate Hx.
    apply String.eqb_eq in Hx. now subst.
  - intros Hin. exists (PyStr k). split; [exact Hin|]. cbn. apply String.eqb_refl.
Qed.

(** The guard raises on the truthy values that are not containers, and on
    nothing else. *)
Lemma query_missing_scalar data :
  is_scalar data = true -> truthy data = true ->
  exists e, query_missing data = Raises e /\ exn_class e = "TypeError".
Proof.
  intros Hs Ht. unfold query_missing, py_not. rewrite Ht. cbn [negb].
  destruct data; try discriminate Hs; cbn; eexists; split; reflexivity.
Qed.

Lemma query_missing_raises data e :
  query_missing data = Raises e ->
  is_scalar data = true /\ truthy data = true /\ exn_class e = "TypeError".
Proof.
  unfold query_missing, py_not. destruct (truthy data) eqn:Ht; cbn [negb];
    [|discriminate].
  destruct data; cbn; intros H; try discriminate H;
    injection H as <-; repeat split.
Qed.

(** Past the guard, the subscript raises on every value that is not an
    object. *)
Lemma getitem_raises data e :
  query_missing data = Returns false -> py_getitem data "query" = Raises e ->
  truthy data = true /\ is_dict data = false
  /\ py_in "query" data = Returns true /\ exn_class e = "TypeError".
Proof.
  unfold query_missing, py_not. destruct (truthy data) eqn:Ht; cbn [negb];
    [|discriminate].
  destruct data as [ | b | n | f | s | l | d]; cbn; try discriminate.
  - destruct (str_contains "query" s); cbn; intros H1 H2; try discriminate H1.
    injection H2 as <-. repeat split.
  - destruct (existsb (eq_str "query") l); cbn; intros H1 H2; try discriminate H1.
    injection H2 as <-. repeat split.
  - unfold dict_has. destruct (dict_get "query" d); cbn; intros H1 H2;
      discriminate.
Qed.

Lemma non_object_holding_query data :
  truthy data = true -> is_dict data = false ->
  py_in "query" data = Returns true ->
  query_missing data = Returns false
  /\ exists e, py_getitem data "query" = Raises e /\ exn_class e = "TypeError".
Proof.
  intros Ht Hd Hin. unfold query_missing, py_not. rewrite Ht, Hin. cbn.
  split; [reflexivity|].
  destruct data; try discriminate Hd; try discriminate Hin;
    cbn; eexists; split; reflexivity.
Qed.

(** No request changes the module. *)
Lemma serve_keeps_globals g rt rq : globals (snd (serve g rt rq)) = g.
Proof.
  destruct (serve_path g rt rq); try reflexivity. apply forwarded_globals.
Qed.

End Facts.

Import Observations Facts Startup Session.

(** *** Exceptions that leave the view *)

(** X1: [get_stats] lets an exception out exactly when the credential is
    present and either [request.get_json()] raises, or the body is a truthy
    value other than an object that is no container or holds ['query'];
    such an exception is the one of [get_json] or a [TypeError], and it
    comes before any upstream call or print. *)
Theorem view_raises_exactly_when g rt rq :
  ((exists e, outcome g rt rq = Raises e) <->
     not_env (API_KEY g) = false
     /\ ((exists e, get_json rq = Raises e)
         \/ exists data,
              get_json rq = Returns data /\ truthy data = true
              /\ is_dict data = false
              /\ (is_scalar data = true \/ py_in "query" data = Returns true)))
  /\ (forall e, outcome g rt rq = Raises e ->
        effects g rt rq = []
        /\ (get_json rq = Raises e \/ exn_class e = "TypeError")).
Proof.
  split; [split|].
  - intros [e Ho]. unfold outcome in Ho.
    destruct (serve_path g rt rq) as
      [Hk | e' Hk Hj | data e' Hk Hj Hm | data Hk Hj Hm
       | data e' Hk Hj Hm Hq | data q Hk Hj Hm Hq]; cbn in Ho;
      try discriminate Ho.
    + split; [exact Hk|]. left. exists e'. exact Hj.
    + split; [exact Hk|]. right. exists data.
      destruct (query_missing_raises data e' Hm) as [Hs [Ht _]].
      repeat split; auto. destruct data; try discriminate Hs; reflexivity.
    + split; [exact Hk|]. right. exists data.
      destruct (getitem_raises data e' Hm Hq) as [Ht [Hd [Hin _]]].
      repeat split; auto.
    + exfalso. destruct (forwarded_status g rt q) as [r [Hr _]].
      rewrite Hr in Ho. discriminate Ho.
  - intros [Hk [[e Hj] | [data [Hj [Ht [Hd [Hs | Hin]]]]]]]; unfold outcome.
    + exists e. rewrite (serve_get_json_raises g rt rq Hk e Hj). reflexivity.
    + destruct (query_missing_scalar data Hs Ht) as [e [Hm _]].
      exists e. rewrite (serve_validation_raises g rt rq Hk data e Hj Hm).
      reflexivity.
    + destruct (non_object_holding_query data Ht Hd Hin) as [Hm [e [Hq _]]].
      exists e. rewrite (serve_getitem_raises g rt rq Hk data e Hj Hm Hq).
      reflexivity.
  - intros e Ho. unfold outcome in Ho. unfold effects.
    destruct (serve_path g rt rq) as
      [Hk | e' Hk Hj | data e' Hk Hj Hm | data Hk Hj Hm
       | data e' Hk Hj Hm Hq | data q Hk Hj Hm Hq]; cbn in Ho;
      try discriminate Ho.
    + injection Ho as <-. split; [reflexivity|]. left. exact Hj.
    + injection Ho as <-. split; [reflexivity|]. right.
      exact (proj2 (proj2 (query_missing_raises data e' Hm))).
    + injection Ho as <-. split; [reflexivity|]. right.
      exact (proj2 (proj2 (proj2 (getitem_raises data e' Hm Hq)))).
    + exfalso. destruct (forwarded_status g rt q) as [r [Hr _]].
      rewrite Hr in Ho. discriminate Ho.
Qed.

Lemma view_raises_exactly_when_witness :
  exists e, outcome Fixtures.with_key (Fixtures.replying Fixtures.IRON_TEXT)
              (mkRequest (Returns (PyInt 5))) = Raises e.
Proof.
  apply (proj2 (proj1 (view_raises_exactly_when Fixtures.with_key
                         (Fixtures.replying Fixtures.IRON_TEXT)
                         (mkRequest (Returns (PyInt 5)))))).
  split; [reflexivity|]. right. exists (PyInt 5).
  split; [reflexivity|]. split; [reflexivity|]. split; [reflexivity|].
  left. reflexivity.
Defined.

(** X2: with the credential present, a body that is a JSON string gets the
    400 unless the text [query] occurs in it, and a body that is a JSON array
    gets the 400 unless the string ["query"] is one of its elements; in the
    two other cases the guard passes and [data['query']] raises a
    [TypeError] that leaves the view. *)
Theorem string_and_array_bodies g rt rq data :
  not_env (API_KEY g) = false ->
  get_json rq = Returns data ->
  (forall s, data = PyStr s ->
     (occurs_in "query" s ->
        exists e, outcome g rt rq = Raises e /\ exn_class e = "TypeError")
     /\ (~ occurs_in "query" s ->
        outcome g rt rq = Returns (error_response MISSING_QUERY_MESSAGE 400)))
  /\ (forall l, data = PyList l ->
     (In (PyStr "query") l ->
        exists e, outcome g rt rq = Raises e /\ exn_class e = "TypeError")
     /\ (~ In (PyStr "query") l ->
        outcome g rt rq = Returns (error_response MISSING_QUERY_MESSAGE 400))).
Proof.
  intros Hk Hj.
  assert (Hyes : truthy data = true ->
            is_dict data = false -> py_in "query" data = Returns true ->
            exists e, outcome g rt rq = Raises e /\ exn_class e = "TypeError").
  { intros Ht Hd Hin.
    destruct (non_object_holding_query data Ht Hd Hin) as [Hm [e [Hq Hc]]].
    exists e. split; [|exact Hc]. unfold outcome.
    rewrite (serve_getitem_raises g rt rq Hk data e Hj Hm Hq). reflexivity. }
  assert (Hno : query_missing data = Returns true ->
            outcome g rt rq = Returns (error_response MISSING_QUERY_MESSAGE 400)).
  { intros Hm. unfold outcome.
    rewrite (serve_rejected g rt rq Hk data Hj Hm). reflexivity. }
  split.
  - intros s ->. split.
    + intros Hocc. apply Hyes; [|reflexivity|].
      * destruct s as [|c s]; [|reflexivity].
        destruct Hocc as [[|c b] [after H]]; discriminate H.
      * cbn. apply str_contains_spec in Hocc. now rewrite Hocc.
    + intros Hocc. apply Hno. unfold query_missing.
      destruct (py_not (PyStr s)); [reflexivity|]. cbn.
      destruct (str_contains "query" s) eqn:Hc; [|reflexivity].
      elim Hocc. now apply str_contains_spec.
  - intros l ->. split.
    + intros Hin. apply Hyes; [|reflexivity|].
      * destruct l; [destruct Hin | reflexivity].
      * cbn. apply existsb_eq_str in Hin. now rewrite Hin.
    + intros Hin. apply Hno. unfold query_missing.
      destruct (py_not (PyList l)); [reflexivity|]. cbn.
      destruct (existsb (eq_str "query") l) eqn:Hc; [|reflexivity].
      elim Hin. now apply existsb_eq_str.
Qed.

Lemma string_and_array_bodies_witness :
  (exists e, outcome Fixtures.with_key (Fixtures.raising Fixtures.TIMEOUT)
               (mkRequest (Returns (PyStr "my query"))) = Raises e
             /\ exn_class e = "TypeError")
  /\ outcome Fixtures.with_key (Fixtures.raising Fixtures.TIMEOUT)
       (mkRequest (Returns (PyList [PyStr "Fe"])))
     = Returns (error_response MISSING_QUERY_MESSAGE 400).
Proof.
  split.
  - apply (proj1 (proj1 (string_and_array_bodies Fixtures.with_key
                           (Fixtures.raising Fixtures.TIMEOUT)
                           (mkRequest (Returns (PyStr "my query")))
                           (PyStr "my query") eq_refl eq_refl)
                    "my query" eq_refl)).
    exists "my ", "". reflexivity.
  - apply (proj2 (proj2 (string_and_array_bodies Fixtures.with_key
                           (Fixtures.raising Fixtures.TIMEOUT)
                           (mkRequest (Returns (PyList [PyStr "Fe"])))
                           (PyList [PyStr "Fe"]) eq_refl eq_refl)
                    [PyStr "Fe"] eq_refl)).
    intros [H | []]. discriminate H.
Defined.

(** *** The upstream reply *)



(** X4: of a reply only the text of the first part of the first candidate is
    read: the further parts and candidates change nothing, and the response
    is what [json.loads] makes of that text, the decoded value with status
    200 or its exception as a generation failure. *)
Theorem only_first_part_is_read g rt rq d user_query t more_parts more_candidates :
  not_env (API_KEY g) = false ->
  get_json rq = Returns (PyDict d) ->
  dict_get "query" d = Some user_query ->
  generate_content rt (stats_model g) (prompt_for user_query)
    (stats_generation_config g)
    = Returns (mkGenResponse
                 (mkCandidate (mkContent (mkPart t :: more_parts))
                  :: more_candidates)) ->
  outcome g rt rq
  = match json_loads rt t with
    | inr parsed => Returns {| json := parsed; status_code := 200 |}
    | inl e => Returns (error_response (GENERATION_FAILED_PREFIX ++ exn_str e) 500)
    end.
Proof.
  intros Hk Hj Hd Hg. unfold outcome.
  rewrite (serve_object_with_query g rt rq d user_query Hk Hj Hd).
  unfold forwarded, upstream_payload. rewrite Hg.
  unfold relay, stats_text. cbn.
  destruct (json_loads rt t); reflexivity.
Qed.

Lemma only_first_part_is_read_witness :
  outcome Fixtures.with_key
    {| json_loads := Fixtures.loads
     ; generate_content := fun _ _ _ =>
         Returns (mkGenResponse
                    [ mkCandidate (mkContent [mkPart "{}"; mkPart "Sorry."])
                    ; mkCandidate (mkContent [mkPart "[]"]) ]) |}
    Fixtures.request_Fe
  = Returns {| json := PyDict []; status_code := 200 |}.
Proof.
  exact (only_first_part_is_read Fixtures.with_key
           {| json_loads := Fixtures.loads
            ; generate_content := fun _ _ _ =>
                Returns (mkGenResponse
                           [ mkCandidate (mkContent [mkPart "{}"; mkPart "Sorry."])
                           ; mkCandidate (mkContent [mkPart "[]"]) ]) |}
           Fixtures.request_Fe [("query", PyStr "Fe")] (PyStr "Fe") "{}"
           [mkPart "Sorry."] [mkCandidate (mkContent [mkPart "[]"])]
           eq_refl eq_refl eq_refl eq_refl).
Defined.

(** *** Effects and outcome *)


(** *** The credential *)

(** X6: an empty [GEMINI_API_KEY] counts as a missing one: every request
    gets the fixed 500 and nothing is sent upstream. *)
Theorem empty_credential_is_500 g rt rq :
  API_KEY g = Some "" ->
  outcome g rt rq = Returns (error_response MISSING_KEY_MESSAGE 500)
  /\ effects g rt rq = [].
Proof.
  intros Hk.
  assert (Hn : not_env (API_KEY g) = true) by (rewrite Hk; reflexivity).
  unfold outcome, effects. rewrite (serve_no_key g rt rq Hn). split; reflexivity.
Qed.

Lemma empty_credential_is_500_witness :
  outcome (import_module (Some "")) (Fixtures.replying Fixtures.IRON_TEXT)
    Fixtures.request_Fe
  = Returns (error_response MISSING_KEY_MESSAGE 500).
Proof.
  exact (proj1 (empty_credential_is_500 (import_module (Some ""))
                  (Fixtures.replying Fixtures.IRON_TEXT) Fixtures.request_Fe
                  eq_refl)).
Defined.

(** X7: the view tests the credential for emptiness and never uses its
    value: two modules with the same model and generation configuration,
    whose keys are both present or both missing, answer every request alike
    and with the same effects, so the key is in no response and in no
    upstream call. *)
Theorem credential_value_is_not_used g1 g2 rt rq :
  not_env (API_KEY g1) = not_env (API_KEY g2) ->
  stats_model g1 = stats_model g2 ->
  stats_generation_config g1 = stats_generation_config g2 ->
  outcome g1 rt rq = outcome g2 rt rq
  /\ effects g1 rt rq = effects g2 rt rq.
Proof.
  intros Hk Hm Hc. unfold outcome, effects.
  destruct (not_env (API_KEY g2)) eqn:Hk2.
  { rewrite (serve_no_key g1 rt rq Hk), (serve_no_key g2 rt rq Hk2).
    split; reflexivity. }
  destruct (get_json rq) as [e|data] eqn:Hj.
  { rewrite (serve_get_json_raises g1 rt rq Hk e Hj),
            (serve_get_json_raises g2 rt rq Hk2 e Hj). split; reflexivity. }
  destruct (query_missing data) as [e|[|]] eqn:Hq.
  { rewrite (serve_validation_raises g1 rt rq Hk data e Hj Hq),
            (serve_validation_raises g2 rt rq Hk2 data e Hj Hq).
    split; reflexivity. }
  { rewrite (serve_rejected g1 rt rq Hk data Hj Hq),
            (serve_rejected g2 rt rq Hk2 data Hj Hq). split; reflexivity. }
  destruct (py_getitem data "query") as [e|q] eqn:Hg.
  { rewrite (serve_getitem_raises g1 rt rq Hk data e Hj Hq Hg),
            (serve_getitem_raises g2 rt rq Hk2 data e Hj Hq Hg).
    split; reflexivity. }
  rewrite (serve_forwarded g1 rt rq Hk data q Hj Hq Hg),
          (serve_forwarded g2 rt rq Hk2 data q Hj Hq Hg).
  unfold forwarded, upstream_payload, call_event. rewrite Hm, Hc.
  destruct (generate_content rt (stats_model g2) (prompt_for q)
              (stats_generation_config g2)) as [e|response];
    [split; reflexivity|].
  destruct (relay rt response); split; reflexivity.
Qed.

Lemma credential_value_is_not_used_witness :
  outcome (import_module (Some "key-one")) (Fixtures.replying Fixtures.IRON_TEXT)
    Fixtures.request_Fe
  = outcome (import_module (Some "another key")) (Fixtures.replying Fixtures.IRON_TEXT)
      Fixtures.request_Fe.
Proof.
  exact (proj1 (credential_value_is_not_used
                  (import_module (Some "key-one"))
                  (import_module (Some "another key"))
                  (Fixtures.replying Fixtures.IRON_TEXT) Fixtures.request_Fe
                  eq_refl eq_refl eq_refl)).
Defined.

(** X8: every upstream call of the module as imported is made on the model
    [gemini-2.5-flash-preview-09-2025] with [STATS_PROMPT] as system
    instruction, asks for [application/json] constrained by [STATS_SCHEMA],
    and its contents are the literal text "Generate stats for: " followed by
    the [query] of the request body. *)
Theorem upstream_call_carries_prompt_and_schema key rt rq ev :
  In ev (effects (import_module key) rt rq) ->
  is_generate ev = true ->
  exists user_query,
    extracts rq user_query
    /\ ev = EvGenerate
              (mkGenerativeModel "gemini-2.5-flash-preview-09-2025" STATS_PROMPT)
              [Lit "Generate stats for: "; Interp user_query]
              (mkGenerationConfig "application/json" STATS_SCHEMA).
Proof.
  unfold effects.
  destruct (serve_path (import_module key) rt rq) as
    [Hk | e Hk Hj | data e Hk Hj Hm | data Hk Hj Hm
     | data e Hk Hj Hm Hq | data q Hk Hj Hm Hq];
    try (intros []).
  intros Hin Hgen. exists q.
  split; [exists data; auto|].
  unfold forwarded in Hin.
  destruct (upstream_payload rt (import_module key) q); cbn in Hin.
  - destruct Hin as [<- | [<- | []]]; [reflexivity | discriminate Hgen].
  - destruct Hin as [<- | []]. reflexivity.
Qed.

Lemma upstream_call_carries_prompt_and_schema_witness :
  exists user_query,
    extracts Fixtures.request_Fe user_query
    /\ call_event Fixtures.with_key (PyStr "Fe")
       = EvGenerate
           (mkGenerativeModel "gemini-2.5-flash-preview-09-2025" STATS_PROMPT)
           [Lit "Generate stats for: "; Interp user_query]
           (mkGenerationConfig "application/json" STATS_SCHEMA).
Proof.
  apply (upstream_call_carries_prompt_and_schema (Some "test-key")
           (Fixtures.raising Fixtures.TIMEOUT) Fixtures.request_Fe
           (call_event Fixtures.with_key (PyStr "Fe"))).
  - left. reflexivity.
  - reflexivity.
Defined.

(** *** Start-up *)

Module StartupFacts.
Import Py Config Flask View Startup.

Ltac open_script :=
  unfold run_script, script, top_level, main_block, echo, os_makedirs, app_run,
    lift, boot; cbn.

(** Sequencing in [Script]: an exception ends the run where it is raised. *)
Lemma run_script_bind {A B} (a : Script A) (k : A -> Script B) p :
  run_script (bind a k) p
  = match run_script a p with
    | (inl e, p') => (Raises e, p')
    | (inr v, p') => run_script (k v) p'
    end.
Proof.
  unfold run_script. cbn.
  destruct (runState (unEitherT a) p) as [[e|v] p']; reflexivity.
Qed.

(** The top level, case by case. *)
Lemma top_level_runs sys env fs :
  run_script (top_level sys env) (boot fs)
  = (Returns (import_module (getenv env "GEMINI_API_KEY")),
     {| console :=
          (if not_env (getenv env "GEMINI_API_KEY") then [KEY_NOT_SET_LINE] else [])
          ++ match configure sys (getenv env "GEMINI_API_KEY") with
             | inl e => [CONFIGURE_ERROR_PREFIX ++ exn_str e]
             | inr _ => []
             end
      ; files := fs
      ; running := None |}).
Proof.
  open_script.
  destruct (not_env (getenv env "GEMINI_API_KEY")); cbn;
    destruct (configure sys (getenv env "GEMINI_API_KEY")); reflexivity.
Qed.

(** The line about the unset variable is no line about [configure]. *)
Lemma configure_line_differs s : CONFIGURE_ERROR_PREFIX ++ s <> KEY_NOT_SET_LINE.
Proof. cbn. discriminate. Qed.

(** The [__main__] block on a process that has printed [lines]. *)
Lemma main_block_runs sys lines fs :
  run_script (main_block sys) {| console := lines; files := fs; running := None |}
  = if os_path_exists fs "static" then
      (Returns tt,
       {| console := lines ++ [STARTING_LINE; REMEMBER_LINE]
        ; files := fs; running := Some (5001, true) |})
    else
      match makedirs sys fs "static" with
      | inr fs' =>
          (Returns tt,
           {| console := lines ++ [STARTING_LINE; REMEMBER_LINE]
            ; files := fs'; running := Some (5001, true) |})
      | inl e =>
          (Raises e,
           {| console := lines ++ [STARTING_LINE]; files := fs; running := None |})
      end.
Proof.
  open_script. destruct (os_path_exists fs "static"); cbn.
  - rewrite <- app_assoc. reflexivity.
  - destruct (makedirs sys fs "static"); cbn; [reflexivity|].
    rewrite <- app_assoc. reflexivity.
Qed.

End StartupFacts.

Import StartupFacts.

(** X9: importing the module never fails, whatever [genai.configure] does,
    touches no file and starts no server; and it prints the line about the
    unset variable exactly when the stats endpoint of the imported module
    will answer every request with the missing-credential 500. *)
Theorem startup_warning_matches_endpoint sys env fs :
  exists p,
    run_script (top_level sys env) (boot fs)
      = (Returns (import_module (getenv env "GEMINI_API_KEY")), p)
    /\ files p = fs /\ running p = None
    /\ (In KEY_NOT_SET_LINE (console p) <->
        forall rt rq,
          outcome (import_module (getenv env "GEMINI_API_KEY")) rt rq
          = Returns (error_response MISSING_KEY_MESSAGE 500)).
Proof.
  rewrite top_level_runs. eexists. split; [reflexivity|].
  split; [reflexivity|]. split; [reflexivity|]. cbn [console].
  destruct (not_env (getenv env "GEMINI_API_KEY")) eqn:Hk.
  - split; [|intros _; left; reflexivity].
    intros _ rt rq. unfold outcome.
    rewrite (serve_no_key (import_module (getenv env "GEMINI_API_KEY")) rt rq Hk).
    reflexivity.
  - split.
    + cbn. destruct (configure sys (getenv env "GEMINI_API_KEY")) as [e|u];
        [|intros []].
      intros [H | []]. now apply configure_line_differs in H.
    + intros H.
      pose (rt0 := {| json_loads := fun _ => Returns PyNone
                    ; generate_content := fun _ _ _ => Returns (mkGenResponse []) |}).
      pose (rq0 := mkRequest (Returns (PyDict []))).
      specialize (H rt0 rq0). unfold outcome in H.
      rewrite (serve_rejected (import_module (getenv env "GEMINI_API_KEY")) rt0 rq0
                 Hk (PyDict []) eq_refl eq_refl) in H.
      discriminate H.
Qed.

(** X10: a failure of [genai.configure] is printed and otherwise ignored:
    the module is bound as if the call had succeeded, and with a non-empty
    key the stats endpoint goes on to make its upstream call for every body
    that holds a [query]. *)
Theorem configure_failure_is_swallowed sys env fs e :
  configure sys (getenv env "GEMINI_API_KEY") = Raises e ->
  (exists p,
     run_script (top_level sys env) (boot fs)
       = (Returns (import_module (getenv env "GEMINI_API_KEY")), p)
     /\ In (CONFIGURE_ERROR_PREFIX ++ exn_str e) (console p))
  /\ (forall sys', fst (run_script (top_level sys' env) (boot fs))
                   = fst (run_script (top_level sys env) (boot fs)))
  /\ (forall rt rq d user_query,
        not_env (getenv env "GEMINI_API_KEY") = false ->
        get_json rq = Returns (PyDict d) ->
        dict_get "query" d = Some user_query ->
        upstream_calls (effects (import_module (getenv env "GEMINI_API_KEY")) rt rq)
        = [call_event (import_module (getenv env "GEMINI_API_KEY")) user_query]).
Proof.
  intros Hc. split; [|split].
  - rewrite top_level_runs. eexists. split; [reflexivity|].
    cbn [console]. rewrite Hc. apply in_or_app. right. left. reflexivity.
  - intros sys'. rewrite !top_level_runs. reflexivity.
  - intros rt rq d q Hk Hj Hd. unfold effects.
    rewrite (serve_object_with_query
               (import_module (getenv env "GEMINI_API_KEY")) rt rq d q Hk Hj Hd).
    apply forwarded_calls.
Qed.

Lemma configure_failure_is_swallowed_witness :
  upstream_calls
    (effects (import_module (Some "bad-key"))
       (Fixtures.replying Fixtures.IRON_TEXT) Fixtures.request_Fe)
  = [call_event (import_module (Some "bad-key")) (PyStr "Fe")].
Proof.
  exact (proj2 (proj2
    (configure_failure_is_swallowed rejecting [("GEMINI_API_KEY", "bad-key")]
       empty_directory BAD_KEY eq_refl))
    (Fixtures.replying Fixtures.IRON_TEXT) Fixtures.request_Fe
    [("query", PyStr "Fe")] (PyStr "Fe") eq_refl eq_refl eq_refl).
Defined.

(** X11: when [static] already exists, as a directory or as anything else,
    the [__main__] block leaves the files as they are without calling
    [os.makedirs], prints its two lines and enters [app.run] on port 5001
    with [debug=True]. *)
Theorem main_block_keeps_existing_static sys fs :
  os_path_exists fs "static" = true ->
  run_script (main_block sys) (boot fs)
  = (Returns tt,
     {| console := [STARTING_LINE; REMEMBER_LINE]
      ; files := fs
      ; running := Some (5001, true) |}).
Proof.
  intros He. unfold boot. rewrite main_block_runs, He. reflexivity.
Qed.

Lemma main_block_keeps_existing_static_witness :
  run_script (main_block read_only) (boot (only "static" File))
  = (Returns tt,
     {| console := [STARTING_LINE; REMEMBER_LINE]
      ; files := only "static" File
      ; running := Some (5001, true) |}).
Proof.
  exact (main_block_keeps_existing_static read_only (only "static" File) eq_refl).
Defined.

(** X12: provided [os.makedirs] leaves the path it was asked for in place
    when it returns, the [__main__] block enters [app.run] only with
    [static] in place; it does not enter it exactly when [static] was
    missing and [os.makedirs] raised, and then that exception ends the
    script after the first line, with the files untouched. *)
Theorem server_runs_only_with_static sys fs :
  (forall fs0 path fs', makedirs sys fs0 path = Returns fs' ->
                        os_path_exists fs' path = true) ->
  (running (snd (run_script (main_block sys) (boot fs))) = Some (5001, true)
   /\ os_path_exists (files (snd (run_script (main_block sys) (boot fs)))) "static"
      = true
   /\ fst (run_script (main_block sys) (boot fs)) = Returns tt)
  \/ (exists e,
        os_path_exists fs "static" = false
        /\ makedirs sys fs "static" = Raises e
        /\ run_script (main_block sys) (boot fs)
           = (Raises e,
              {| console := [STARTING_LINE]; files := fs; running := None |})).
Proof.
  intros Hmk. unfold boot. rewrite main_block_runs.
  destruct (os_path_exists fs "static") eqn:He.
  - left. cbn. auto.
  - destruct (makedirs sys fs "static") as [e|fs'] eqn:Hm.
    + right. exists e. auto.
    + left. cbn. split; [reflexivity|]. split; [|reflexivity].
      exact (Hmk fs "static" fs' Hm).
Qed.

Lemma server_runs_only_with_static_witness :
  (running (snd (run_script (main_block healthy) (boot empty_directory)))
   = Some (5001, true)
   /\ os_path_exists
        (files (snd (run_script (main_block healthy) (boot empty_directory))))
        "static" = true
   /\ fst (run_script (main_block healthy) (boot empty_directory)) = Returns tt)
  \/ (exists e,
        os_path_exists empty_directory "static" = false
        /\ makedirs healthy empty_directory "static" = Raises e
        /\ run_script (main_block healthy) (boot empty_directory)
           = (Raises e,
              {| console := [STARTING_LINE]; files := empty_directory
               ; running := None |})).
Proof.
  apply (server_runs_only_with_static healthy empty_directory).
  intros fs0 path fs' H. injection H as <-.
  unfold os_path_exists, add_directory. rewrite String.eqb_refl. reflexivity.
Defined.

(** X13: run as a script with [static] in place, the file starts the server
    whether or not the credential is set and whether or not
    [genai.configure] fails: a missing key is reported on the console and
    by the stats endpoint, never by refusing to start. *)
Theorem script_starts_without_credential sys env fs :
  os_path_exists fs "static" = true ->
  exists lines,
    run_script (script sys env) (boot fs)
    = (Returns (import_module (getenv env "GEMINI_API_KEY")),
       {| console := lines ++ [STARTING_LINE; REMEMBER_LINE]
        ; files := fs
        ; running := Some (5001, true) |}).
Proof.
  intros He. unfold script.
  rewrite run_script_bind, top_level_runs.
  rewrite run_script_bind, main_block_runs, He.
  eexists. reflexivity.
Qed.

Lemma script_starts_without_credential_witness :
  exists lines,
    run_script (script rejecting []) (boot (only "static" Dir))
    = (Returns (import_module None),
       {| console := lines ++ [STARTING_LINE; REMEMBER_LINE]
        ; files := only "static" Dir
        ; running := Some (5001, true) |}).
Proof.
  exact (script_starts_without_credential rejecting [] (only "static" Dir) eq_refl).
Defined.

(** *** Requests in sequence *)

(** X15: requests served one after another by the same process do not
    affect each other: each gets the response and has the effects it would
    have alone against the module as imported, and the module is unchanged
    at the end. *)
Theorem requests_do_not_affect_each_other g reqs :
  serve_all g reqs = (serve_each g reqs, g).
Proof.
  induction reqs as [|[rt rq] rest IH]; [reflexivity|].
  cbn [serve_all serve_each map fst snd].
  pose proof (serve_keeps_globals g rt rq) as Hg.
  unfold outcome, effects.
  destruct (serve g rt rq) as [r w]. cbn in Hg |- *. rewrite Hg.
  unfold serve_each in IH. rewrite IH. reflexivity.
Qed.
